(** * metabridge: the HTTP bridge to the advertising Graph API

    A shallow embedding of the three gateway sources of the repository
    and of the state of its dashboard page

    - [RoutesTs]: [server/routes.ts] ([registerRoutes]),
    - [BridgeV1]: the first server script (guard with [openPaths], inline
      conversion),
    - [BridgeV2]: the second server script (guard with [OPEN_PATHS],
      [ensureEnv], [toCents], the [/api/simulate] policy simulator),
    - [Dashboard]: the request history of [client/src/pages/dashboard.tsx],

    followed by the properties of the specification that concern them.

    JavaScript numbers are IEEE 754 binary64 values, modelled by Rocq's
    primitive [float]; request bodies are the values [express.json()] puts
    in [req.body]; the remote Graph API and what the conversions of
    ECMAScript leave to the runtime (the text of a number, the number a
    text denotes, [JSON.stringify], the message of a TypeError) are
    parameters of the handlers. An exception thrown inside a handler is
    answered by its [catch]. *)

From Stdlib Require Import ZArith Bool List String Ascii Lia.
From Stdlib Require Import Uint63 Floats.
Import ListNotations.

Local Open Scope string_scope.

(* [value] below is nested through [list] and [prod]; no induction scheme
   over it is needed. *)
Set Warnings "-register-all".

(** ** JavaScript values *)

(** The values a handler sees: what [JSON.parse] builds, and [undefined]
    for a property that is absent. An object is the list of its own
    properties; keys are distinct after parsing. *)
Inductive value : Type :=
| VUndefined
| VNull
| VBool (b : bool)
| VNum (x : float)
| VStr (s : string)
| VArr (items : list value)
| VObj (props : list (string * value)).

(** [typeof v === "number"] *)
Definition is_number (v : value) : bool :=
  match v with VNum _ => true | _ => false end.

(** [v === undefined] *)
Definition is_undefined (v : value) : bool :=
  match v with VUndefined => true | _ => false end.

(** [Array.isArray(v)] *)
Definition is_array (v : value) : bool :=
  match v with VArr _ => true | _ => false end.

(** [v === "literal"]: strict equality with a string literal. *)
Definition is_string (v : value) (lit : string) : bool :=
  match v with VStr s => String.eqb s lit | _ => false end.

(** ToBoolean: [undefined], [null], [false], [0], [-0], [NaN] and the empty
    string are falsy, everything else (every array and object) is truthy. *)
Definition truthy (v : value) : bool :=
  match v with
  | VUndefined | VNull => false
  | VBool b => b
  | VNum x => negb (PrimFloat.is_zero x || PrimFloat.is_nan x)
  | VStr s => negb (String.eqb s EmptyString)
  | VArr _ | VObj _ => true
  end.

(** [a || b] on values. *)
Definition js_or (a b : value) : value := if truthy a then a else b.

Fixpoint lookup (k : string) (props : list (string * value)) : value :=
  match props with
  | [] => VUndefined
  | (k', v) :: rest => if String.eqb k k' then v else lookup k rest
  end.

(** [v.k] for the property names the sources read ([id], [type],
    [delta_pct], [since], ...), none of which is a built-in property of
    arrays, strings, numbers or booleans. Reading a property of [null] or
    [undefined] throws a TypeError: [None]. *)
Definition get (v : value) (k : string) : option value :=
  match v with
  | VUndefined | VNull => None
  | VObj props => Some (lookup k props)
  | VBool _ | VNum _ | VStr _ | VArr _ => Some VUndefined
  end.

(** [v.k] where the receiver is known not to be [null] or [undefined]: the
    destructuring of [req.body || {}], and [payload.status] under a truthy
    [payload]. *)
Definition prop (v : value) (k : string) : value :=
  match get v k with Some x => x | None => VUndefined end.

(** A destructuring default, [{ k = d } = obj]: [d] replaces [undefined]
    only. *)
Definition or_default (v d : value) : value :=
  match v with VUndefined => d | _ => v end.

(** [arr.includes(v)] for an array of strings. *)
Definition includes (arr : list string) (v : value) : bool :=
  match v with
  | VStr s => existsb (String.eqb s) arr
  | _ => false
  end.

(** ** Numbers *)

Definition float_of_Z (k : Z) : float :=
  if (k <? 0)%Z then PrimFloat.opp (PrimFloat.of_uint63 (Uint63.of_Z (- k)))
  else PrimFloat.of_uint63 (Uint63.of_Z k).

(** The integer [floor (v / 2^n + 1/2)] for [n >= 1]. *)
Definition half_up (v : Z) (n : Z) : Z := ((v + 2 ^ (n - 1)) / 2 ^ n)%Z.

(** A float of integral magnitude [k] with the sign bit [s]: rounding keeps
    the sign of its argument, so a negative argument that rounds to zero
    gives [-0]. *)
Definition signed_integral (s : bool) (k : Z) : float :=
  if (k =? 0)%Z then (if s then PrimFloat.neg_zero else PrimFloat.zero)
  else float_of_Z k.

(** [Math.round(x)]: the integer nearest to [x], a tie going towards
    [+Infinity]. NaN, the zeros, the infinities and the floats that are
    integers already (exponent [e >= 0]) are returned as they are; a float
    with a negative exponent is below [2^52] in magnitude, so the rounded
    integer is a float. *)
Definition Math_round (x : float) : float :=
  match Prim2SF x with
  | S754_finite s m e =>
      if (0 <=? e)%Z then x
      else signed_integral s (half_up (if s then Z.neg m else Z.pos m) (- e))
  | _ => x
  end.

(** Rounding to the nearest integer with a tie going away from zero, as
    the specification words the conversion. *)
Definition round_half_away_from_zero (x : float) : float :=
  match Prim2SF x with
  | S754_finite s m e =>
      if (0 <=? e)%Z then x
      else
        let k := half_up (Z.pos m) (- e) in
        signed_integral s (if s then (- k)%Z else k)
  | _ => x
  end.

(** ** Conversions of the language

    A template literal applies [ToString] to an interpolated value and
    [Number(...)] applies [ToNumber]. On the values of a JSON body both
    are determined by ECMAScript up to the text of a number, the number a
    text denotes, and the message of the TypeError that the conversion of
    an object to a primitive throws; these, and [JSON.stringify], belong to
    the runtime and are a parameter of the handlers. *)
Record Runtime : Type := {
  NumberToString : float -> string;
  StringToNumber : string -> float;
  JSON_stringify : value -> string;
  cannot_convert : string
}.

(** The result of an evaluation that may throw; [message] is [e.message]
    of the exception. *)
Inductive completion (A : Type) : Type :=
| Normal (a : A)
| Throw (message : string).

Arguments Normal {A} a.
Arguments Throw {A} message.

(** The object has an own property [k]. *)
Definition has_key (k : string) (props : list (string * value)) : bool :=
  existsb (fun kv => String.eqb k (fst kv)) props.

(** [ToString(v)]. An object of a JSON body inherits
    [Object.prototype.toString], which gives ["[object Object]"], unless it
    has an own member [toString]: a member of a JSON object is never
    callable, [valueOf] gives back the object, and the conversion throws a
    TypeError. An array is joined with commas, [null] and [undefined]
    elements giving the empty text, and throws when an element does. *)
Fixpoint ToString (rt : Runtime) (v : value) : completion string :=
  match v with
  | VUndefined => Normal "undefined"
  | VNull => Normal "null"
  | VBool b => Normal (if b then "true" else "false")
  | VNum x => Normal (NumberToString rt x)
  | VStr s => Normal s
  | VArr items =>
      (fix join (l : list value) : completion string :=
         match l with
         | [] => Normal EmptyString
         | x :: rest =>
             match
               match x with
               | VUndefined | VNull => Normal EmptyString
               | _ => ToString rt x
               end
             with
             | Throw m => Throw m
             | Normal first =>
                 match rest with
                 | [] => Normal first
                 | _ :: _ =>
                     match join rest with
                     | Throw m => Throw m
                     | Normal others => Normal (first ++ "," ++ others)
                     end
                 end
             end
         end) items
  | VObj props =>
      if has_key "toString" props then Throw (cannot_convert rt)
      else Normal "[object Object]"
  end.

(** [Number(v)]. An array or object is converted through its string form,
    and throws when that conversion does. *)
Definition ToNumber (rt : Runtime) (v : value) : completion float :=
  match v with
  | VUndefined => Normal PrimFloat.nan
  | VNull => Normal PrimFloat.zero
  | VBool b => Normal (if b then PrimFloat.one else PrimFloat.zero)
  | VNum x => Normal x
  | VStr s => Normal (StringToNumber rt s)
  | VArr _ | VObj _ =>
      match ToString rt v with
      | Normal s => Normal (StringToNumber rt s)
      | Throw m => Throw m
      end
  end.

(** ** Strings of the environment *)

(** Truthiness of an environment variable or header: set and not empty. *)
Definition str_truthy (o : option string) : bool :=
  match o with Some s => negb (String.eqb s EmptyString) | None => false end.

(** [a || b] where both are a string or [undefined]. *)
Definition opt_or (a b : option string) : option string :=
  if str_truthy a then a else b.

(** [a || "literal"] *)
Definition str_or (a : option string) (d : string) : string :=
  match opt_or a (Some d) with Some s => s | None => d end.

(** A string or [undefined] interpolated in a template literal. *)
Definition tpl (o : option string) : string :=
  match o with Some s => s | None => "undefined" end.

(** [Boolean(x)] as a JSON value. *)
Definition VBoolean (o : option string) : value := VBool (str_truthy o).

(** *** [String.prototype.trim]

    Strings are UTF-8 byte sequences. White space and line terminators of
    ECMAScript: U+0009..U+000D, U+0020, U+00A0, U+1680, U+2000..U+200A,
    U+2028, U+2029, U+202F, U+205F, U+3000, U+FEFF. *)
Definition byte_is (c : ascii) (n : N) : bool := N.eqb (N_of_ascii c) n.

Definition ascii_space (c : ascii) : bool :=
  let n := N_of_ascii c in
  ((9 <=? n)%N && (n <=? 13)%N) || (n =? 32)%N.

Definition space2 (c1 c2 : ascii) : bool := byte_is c1 194 && byte_is c2 160.

Definition space3 (c1 c2 c3 : ascii) : bool :=
  let n3 := N_of_ascii c3 in
  (byte_is c1 225 && byte_is c2 154 && byte_is c3 128)
  || (byte_is c1 226 && byte_is c2 128
      && (((128 <=? n3)%N && (n3 <=? 138)%N)
          || (n3 =? 168)%N || (n3 =? 169)%N || (n3 =? 175)%N))
  || (byte_is c1 226 && byte_is c2 129 && byte_is c3 159)
  || (byte_is c1 227 && byte_is c2 128 && byte_is c3 128)
  || (byte_is c1 239 && byte_is c2 187 && byte_is c3 191).

(** Drops leading white space; with [back] the string is read from its
    end, the bytes of a character coming in reverse order. *)
Fixpoint strip (back : bool) (s : string) : string :=
  match s with
  | EmptyString => s
  | String c1 s1 =>
      if ascii_space c1 then strip back s1
      else
        match s1 with
        | EmptyString => s
        | String c2 s2 =>
            if (if back then space2 c2 c1 else space2 c1 c2) then strip back s2
            else
              match s2 with
              | EmptyString => s
              | String c3 s3 =>
                  if (if back then space3 c3 c2 c1 else space3 c1 c2 c3)
                  then strip back s3
                  else s
              end
        end
  end.

Definition reverse (s : string) : string :=
  string_of_list_ascii (rev (list_ascii_of_string s)).

Definition trim (s : string) : string :=
  reverse (strip true (reverse (strip false s))).

(** [process.env.X?.trim()] *)
Definition opt_trim (o : option string) : option string := option_map trim o.

(** ** Requests, responses and the remote API *)

(** [process.env]: each variable is a string or unset. *)
Record env : Type := {
  META_GRAPH_VERSION : option string;
  META_AD_ACCOUNT_ID : option string;
  META_ACCESS_TOKEN : option string;
  META_SYSTEM_USER_TOKEN : option string;
  ENV_BRIDGE_API_KEY : option string
}.

(** What the API-key guard reads of a request: [req.method], [req.path]
    and [req.header("X-API-Key")]. *)
Record request : Type := {
  method : string;
  path : string;
  x_api_key : option string
}.

(** [res.status(code).json(body)]; [res.json(body)] has status 200. *)
Record response : Type := {
  status : Z;
  body : value
}.

Definition json (b : value) : response := {| status := 200; body := b |}.

Definition error_json (code : Z) (msg : string) : response :=
  {| status := code; body := VObj [("error", VStr msg)] |}.

(** A middleware either calls [next()] or answers the request itself. *)
Inductive guard_result : Type :=
| Next
| Respond (r : response).

(** A call [axios.get(url, { params, headers })] or
    [axios.post(url, null, { params, headers })]. *)
Record remote_request : Type := {
  verb : string;
  url : string;
  params : list (string * value);
  authorization : string
}.

(** Its outcome: the [data] of the reply, or a rejection, carried as the
    value of [e?.response?.data || e.message] that the [catch] relays. *)
Inductive remote_reply : Type :=
| Replied (data : value)
| Failed (relayed : value).

Definition remote_api : Type := remote_request -> remote_reply.

Definition default_fields : string :=
  "date_start,ad_id,adset_id,campaign_id,spend,clicks,ctr,cpm,actions,action_values,roas".

(** ** server/routes.ts *)

Module RoutesTs.
Section Handlers.
Variable rt : Runtime.
Variable e : env.
Variable remote : remote_api.

Definition GRAPH_VERSION : string := str_or (META_GRAPH_VERSION e) "v23.0".
Definition META_TOKEN : option string := META_SYSTEM_USER_TOKEN e.
Definition AD_ACCOUNT_ID : option string := META_AD_ACCOUNT_ID e.

Definition BASE (p : string) : string :=
  "https://graph.facebook.com/" ++ GRAPH_VERSION ++ "/" ++ p.

Definition bearer : string := "Bearer " ++ tpl META_TOKEN.

(** The [catch] of [endpoint] on an exception thrown by the handler
    itself: [e.response] is undefined and [e.message] is relayed. *)
Definition caught (endpoint : string) (message : string) : response :=
  {| status := 400;
     body := VObj [("error", VStr message); ("endpoint", VStr endpoint)] |}.

(** A rejected remote call, relayed by the [catch] of [endpoint]. *)
Definition relay (endpoint : string) (reply : remote_reply)
    (on_success : value -> value) : response :=
  match reply with
  | Replied data => json (on_success data)
  | Failed err =>
      {| status := 400;
         body := VObj [("error", err); ("endpoint", VStr endpoint)] |}
  end.

(** [app.post("/api/insights", ...)] *)
Definition insights (req_body : value) : response :=
  let b := js_or req_body (VObj []) in
  let level := or_default (prop b "level") (VStr "ad") in
  let since := prop b "since" in
  let until := prop b "until" in
  let time_increment := or_default (prop b "time_increment") (VStr "1") in
  let breakdowns := prop b "breakdowns" in
  let fields := prop b "fields" in
  if negb (truthy since) || negb (truthy until) then
    error_json 400 "since and until dates are required"
  else if negb (str_truthy META_TOKEN) then
    error_json 500 "META_SYSTEM_USER_TOKEN not configured"
  else if negb (str_truthy AD_ACCOUNT_ID) then
    error_json 500 "META_AD_ACCOUNT_ID not configured"
  else
    let params :=
      ([("level", level);
        ("time_range",
         VStr (JSON_stringify rt (VObj [("since", since); ("until", until)])));
        ("time_increment", time_increment);
        ("fields", js_or fields (VStr default_fields))]
       ++ (if truthy breakdowns then [("breakdowns", breakdowns)] else []))%list
    in
    relay "insights"
      (remote {| verb := "GET";
                 url := BASE (tpl AD_ACCOUNT_ID ++ "/insights");
                 params := params;
                 authorization := bearer |})
      (fun data => data).

(** The inline conversion [Math.round(Number(daily_budget_eur) * 100)]. *)
Definition converted_budget_cents (daily_budget_eur : value)
    : completion float :=
  match ToNumber rt daily_budget_eur with
  | Normal n => Normal (Math_round (n * 100)%float)
  | Throw m => Throw m
  end.

(** [app.post("/api/adset_budget", ...)] *)
Definition adset_budget (req_body : value) : response :=
  let b := js_or req_body (VObj []) in
  let adset_id := prop b "adset_id" in
  let daily_budget_eur := prop b "daily_budget_eur" in
  if negb (truthy adset_id) || negb (truthy daily_budget_eur) then
    error_json 400 "adset_id and daily_budget_eur are required"
  else if negb (str_truthy META_TOKEN) then
    error_json 500 "META_SYSTEM_USER_TOKEN not configured"
  else
    match ToString rt adset_id with
    | Throw m => caught "adset_budget" m
    | Normal id_text =>
        match converted_budget_cents daily_budget_eur with
        | Throw m => caught "adset_budget" m
        | Normal daily_budget =>
            relay "adset_budget"
              (remote {| verb := "POST";
                         url := BASE id_text;
                         params := [("daily_budget", VNum daily_budget)];
                         authorization := bearer |})
              (fun data =>
                 VObj [("updated", VBool true); ("meta", data);
                       ("converted_budget_cents", VNum daily_budget)])
        end
    end.

(** [app.post("/api/ad_status", ...)] *)
Definition ad_status (req_body : value) : response :=
  let b := js_or req_body (VObj []) in
  let ad_id := prop b "ad_id" in
  let status := prop b "status" in
  if negb (truthy ad_id) || negb (truthy status) then
    error_json 400 "ad_id and status are required"
  else if negb (includes ["ACTIVE"; "PAUSED"; "ARCHIVED"] status) then
    error_json 400 "status must be ACTIVE, PAUSED, or ARCHIVED"
  else if negb (str_truthy META_TOKEN) then
    error_json 500 "META_SYSTEM_USER_TOKEN not configured"
  else
    match ToString rt ad_id with
    | Throw m => caught "ad_status" m
    | Normal id_text =>
        relay "ad_status"
          (remote {| verb := "POST";
                     url := BASE id_text;
                     params := [("status", status)];
                     authorization := bearer |})
          (fun data =>
             VObj [("updated", VBool true); ("meta", data);
                   ("new_status", status)])
    end.
End Handlers.
End RoutesTs.

(** ** The first server script *)

Module BridgeV1.
Section Handlers.
Variable rt : Runtime.
Variable e : env.
Variable remote : remote_api.

Definition BRIDGE_API_KEY : option string := ENV_BRIDGE_API_KEY e.
Definition GRAPH_VERSION : string := str_or (META_GRAPH_VERSION e) "v23.0".
Definition AD_ACCOUNT_ID : option string := META_AD_ACCOUNT_ID e.
Definition TOKEN : option string := META_SYSTEM_USER_TOKEN e.

Definition openPaths : list string := ["/api/health"].

(** [key === BRIDGE_API_KEY], each a string or [undefined]. *)
Definition same_key (key secret : option string) : bool :=
  match key, secret with
  | Some k, Some s => String.eqb k s
  | None, None => true
  | _, _ => false
  end.

(** The API-key middleware. *)
Definition guard (req : request) : guard_result :=
  if existsb (String.eqb (path req)) openPaths then Next
  else
    let key := x_api_key req in
    if negb (str_truthy BRIDGE_API_KEY) || same_key key BRIDGE_API_KEY
    then Next
    else Respond (error_json 401 "Unauthorized").

Definition BASE (p : string) : string :=
  "https://graph.facebook.com/" ++ GRAPH_VERSION ++ "/" ++ p.

Definition bearer : string := "Bearer " ++ tpl TOKEN.

Definition relay (reply : remote_reply) (on_success : value -> value)
    : response :=
  match reply with
  | Replied data => json (on_success data)
  | Failed err => {| status := 400; body := VObj [("error", err)] |}
  end.

(** [app.post("/api/insights", ...)] *)
Definition insights (req_body : value) : response :=
  let b := js_or req_body (VObj []) in
  let level := or_default (prop b "level") (VStr "ad") in
  let since := prop b "since" in
  let until := prop b "until" in
  let time_increment := or_default (prop b "time_increment") (VStr "1") in
  let breakdowns := prop b "breakdowns" in
  let fields := prop b "fields" in
  let params :=
    ([("level", level);
      ("time_range",
       if truthy since && truthy until
       then VStr (JSON_stringify rt (VObj [("since", since); ("until", until)]))
       else VUndefined);
      ("time_increment", time_increment);
      ("fields", js_or fields (VStr default_fields))]
     ++ (if truthy breakdowns then [("breakdowns", breakdowns)] else []))%list
  in
  relay
    (remote {| verb := "GET";
               url := BASE (tpl AD_ACCOUNT_ID ++ "/insights");
               params := params;
               authorization := bearer |})
    (fun data => data).

(** [app.post("/api/adset_budget", ...)] *)
Definition adset_budget (req_body : value) : response :=
  let b := js_or req_body (VObj []) in
  let adset_id := prop b "adset_id" in
  let daily_budget_eur := prop b "daily_budget_eur" in
  if negb (truthy adset_id) || negb (truthy daily_budget_eur) then
    error_json 400 "adset_id y daily_budget_eur son requeridos"
  else
    match ToString rt adset_id with
    | Throw m => error_json 400 m
    | Normal id_text =>
        match ToNumber rt daily_budget_eur with
        | Throw m => error_json 400 m
        | Normal n =>
            relay
              (remote {| verb := "POST";
                         url := BASE id_text;
                         params :=
                           [("daily_budget",
                             VNum (Math_round (n * 100)%float))];
                         authorization := bearer |})
              (fun data => VObj [("updated", VBool true); ("meta", data)])
        end
    end.

(** [app.post("/api/ad_status", ...)] *)
Definition ad_status (req_body : value) : response :=
  let b := js_or req_body (VObj []) in
  let ad_id := prop b "ad_id" in
  let status := prop b "status" in
  if negb (truthy ad_id) || negb (truthy status) then
    error_json 400 "ad_id y status son requeridos"
  else
    match ToString rt ad_id with
    | Throw m => error_json 400 m
    | Normal id_text =>
        relay
          (remote {| verb := "POST";
                     url := BASE id_text;
                     params := [("status", status)];
                     authorization := bearer |})
          (fun data => VObj [("updated", VBool true); ("meta", data)])
    end.
End Handlers.
End BridgeV1.

(** ** The second server script *)

(** The decision of the simulator on one proposal:
    [{ id: p.id, type: p.type, approved, reason }]. *)
Record outcome : Type := {
  out_id : value;
  out_type : value;
  approved : bool;
  reason : string
}.

Definition set_reason (o : outcome) (r : string) : outcome :=
  {| out_id := out_id o; out_type := out_type o;
     approved := approved o; reason := r |}.

(** [outcome.approved = true; outcome.reason = "OK"] *)
Definition approve (o : outcome) : outcome :=
  {| out_id := out_id o; out_type := out_type o;
     approved := true; reason := "OK" |}.

Definition outcome_value (o : outcome) : value :=
  VObj [("id", out_id o); ("type", out_type o);
        ("approved", VBool (approved o)); ("reason", VStr (reason o))].

Record policy : Type := {
  maxIncreasePct : float;
  maxDecreasePct : float;
  minDailyBudgetEur : float;
  allowStatuses : list string
}.

Definition DEFAULT_POLICY : policy := {|
  maxIncreasePct := 30;
  maxDecreasePct := 30;
  minDailyBudgetEur := 1;
  allowStatuses := ["PAUSED"; "ACTIVE"; "ARCHIVED"]
|}.

(** [set.has(v)] for a Set of strings. *)
Definition has (set : list string) (v : value) : bool :=
  match v with
  | VStr s => existsb (String.eqb s) set
  | _ => false
  end.

(** [arr.map(f)] where [f] may throw: the first exception ends the map. *)
Fixpoint map_throwing {A B : Type} (f : A -> option B) (l : list A)
    : option (list B) :=
  match l with
  | [] => Some []
  | a :: rest =>
      match f a with
      | None => None
      | Some b =>
          match map_throwing f rest with
          | None => None
          | Some bs => Some (b :: bs)
          end
      end
  end.

Module BridgeV2.

(** The branch [p.type === "budget_change"] of the callback. The reason
    texts interpolate the constants of [DEFAULT_POLICY]. *)
Definition budget_change (o : outcome) (delta_pct new_daily_budget_eur : value)
    : outcome :=
  let below_minimum :=
    match new_daily_budget_eur with
    | VNum n => (n <? minDailyBudgetEur DEFAULT_POLICY)%float
    | _ => false
    end in
  if below_minimum then set_reason o "Presupuesto < mínimo (1 EUR)"
  else
    let beyond_threshold :=
      match delta_pct with
      | VNum d =>
          (maxIncreasePct DEFAULT_POLICY <? d)%float
          || (d <? - maxDecreasePct DEFAULT_POLICY)%float
      | _ => false
      end in
    if beyond_threshold then set_reason o "delta_pct fuera de umbral (+30/-30)"
    else approve o.

(** The branch [p.type === "status_change"]. *)
Definition status_change (o : outcome) (new_status : value) : outcome :=
  if negb (has (allowStatuses DEFAULT_POLICY) new_status)
  then set_reason o "Estado no permitido"
  else approve o.

(** The callback of [proposals.map]. [None]: reading [p.id] threw. *)
Definition evaluate (p : value) : option outcome :=
  match get p "id", get p "type" with
  | Some p_id, Some p_type =>
      let o := {| out_id := p_id; out_type := p_type;
                  approved := false; reason := EmptyString |} in
      Some
        (if is_string p_type "budget_change" then
           budget_change o (prop p "delta_pct") (prop p "new_daily_budget_eur")
         else if is_string p_type "status_change" then
           status_change o (prop p "new_status")
         else set_reason o "Tipo no soportado")
  | _, _ => None
  end.

(** The [policy] member of the reply. *)
Definition policy_snapshot : value :=
  VObj [("maxIncreasePct", VNum (maxIncreasePct DEFAULT_POLICY));
        ("maxDecreasePct", VNum (maxDecreasePct DEFAULT_POLICY));
        ("minDailyBudgetEur", VNum (minDailyBudgetEur DEFAULT_POLICY));
        ("allowStatuses", VArr (map VStr (allowStatuses DEFAULT_POLICY)))].

(** The reply of a simulation; [now] is [new Date().toISOString()]. *)
Definition simulation (context : value) (results : list value) (now : string)
    : response :=
  json (VObj [("mode", VStr "simulation");
              ("contextEcho", context);
              ("policy", policy_snapshot);
              ("results", VArr results);
              ("timestamp", VStr now)]).

Section Handlers.
Variable rt : Runtime.
Variable e : env.
Variable remote : remote_api.

Definition GRAPH_VERSION : string :=
  str_or (opt_trim (META_GRAPH_VERSION e)) "v23.0".
Definition AD_ACCOUNT_ID : option string := opt_trim (META_AD_ACCOUNT_ID e).
Definition TOKEN : option string :=
  opt_or (opt_trim (META_ACCESS_TOKEN e)) (opt_trim (META_SYSTEM_USER_TOKEN e)).
Definition BRIDGE_API_KEY : option string := opt_trim (ENV_BRIDGE_API_KEY e).

Definition hasEssentialEnv : bool :=
  str_truthy AD_ACCOUNT_ID && str_truthy TOKEN.

Definition BASE (p : string) : string :=
  "https://graph.facebook.com/" ++ GRAPH_VERSION ++ "/" ++ p.

Definition authHeader : string := "Bearer " ++ tpl TOKEN.

Definition OPEN_PATHS : list string := ["/api/health"; "/healthz"].

(** The API-key middleware. *)
Definition guard (req : request) : guard_result :=
  if existsb (String.eqb (path req)) OPEN_PATHS then Next
  else if String.eqb (method req) "OPTIONS" then Next
  else if negb (str_truthy BRIDGE_API_KEY) then Next
  else
    let key := x_api_key req in
    if str_truthy key && BridgeV1.same_key key BRIDGE_API_KEY then Next
    else Respond (error_json 401 "Unauthorized").

(** [ensureEnv(res)]: [Some r] when it answered [r] and returned
    [false], [None] when it returned [true]. *)
Definition ensureEnv : option response :=
  if negb hasEssentialEnv then
    Some {| status := 500;
            body :=
              VObj [("error", VStr "Missing required env vars");
                    ("details",
                     VObj [("META_AD_ACCOUNT_ID", VBoolean AD_ACCOUNT_ID);
                           ("META_ACCESS_TOKEN",
                            VBoolean (META_ACCESS_TOKEN e));
                           ("META_SYSTEM_USER_TOKEN",
                            VBoolean (META_SYSTEM_USER_TOKEN e))])] |}
  else None.

(** [toCents(eur)]: a number, or [undefined] when [eur] is not numeric;
    it throws when [Number(eur)] does. *)
Definition toCents (eur : value) : completion value :=
  match ToNumber rt eur with
  | Throw m => Throw m
  | Normal n =>
      Normal (if PrimFloat.is_nan n then VUndefined
              else VNum (Math_round (n * 100)%float))
  end.

Definition relay (reply : remote_reply) (on_success : value -> value)
    : response :=
  match reply with
  | Replied data => json (on_success data)
  | Failed err => {| status := 400; body := VObj [("error", err)] |}
  end.

(** [app.post("/api/insights", ...)] *)
Definition insights (req_body : value) : response :=
  match ensureEnv with
  | Some r => r
  | None =>
      let b := js_or req_body (VObj []) in
      let level := or_default (prop b "level") (VStr "ad") in
      let since := prop b "since" in
      let until := prop b "until" in
      let time_increment := or_default (prop b "time_increment") (VStr "1") in
      let breakdowns := prop b "breakdowns" in
      let fields := prop b "fields" in
      let date_preset := prop b "date_preset" in
      let params :=
        ([("level", level);
          ("time_increment", time_increment);
          ("fields", js_or fields (VStr default_fields))]
         ++ (if truthy breakdowns then [("breakdowns", breakdowns)] else [])
         ++ (if truthy since && truthy until then
               [("time_range",
                 VStr (JSON_stringify rt
                         (VObj [("since", since); ("until", until)])))]
             else if truthy date_preset then [("date_preset", date_preset)]
             else []))%list in
      relay
        (remote {| verb := "GET";
                   url := BASE (tpl AD_ACCOUNT_ID ++ "/insights");
                   params := params;
                   authorization := authHeader |})
        (fun data => data)
  end.

(** [app.post("/api/adset_budget", ...)] *)
Definition adset_budget (req_body : value) : response :=
  match ensureEnv with
  | Some r => r
  | None =>
      let b := js_or req_body (VObj []) in
      let adset_id := prop b "adset_id" in
      let daily_budget_eur := prop b "daily_budget_eur" in
      if negb (truthy adset_id) || is_undefined daily_budget_eur then
        error_json 400 "adset_id y daily_budget_eur son requeridos"
      else
        match toCents daily_budget_eur with
        | Throw m => error_json 400 m
        | Normal daily_budget =>
            if is_undefined daily_budget then
              error_json 400 "daily_budget_eur inválido"
            else
              match ToString rt adset_id with
              | Throw m => error_json 400 m
              | Normal id_text =>
                  relay
                    (remote {| verb := "POST";
                               url := BASE id_text;
                               params := [("daily_budget", daily_budget)];
                               authorization := authHeader |})
                    (fun data =>
                       VObj [("updated", VBool true); ("meta", data)])
              end
        end
  end.

(** The mode [action + payload] of the simulator; [payload] is truthy.
    The reason interpolates [payload.status], which may throw. *)
Definition simulate_action (action payload : value) : completion value :=
  if is_string action "ad_status" then
    let status := prop payload "status" in
    let allowed := has (allowStatuses DEFAULT_POLICY) status in
    match ToString rt status with
    | Throw m => Throw m
    | Normal status_text =>
        Normal
          (VObj [("type", VStr "status_change");
                 ("payload", payload);
                 ("approved", VBool allowed);
                 ("reason",
                  VStr (if allowed
                        then "Status change to " ++ status_text ++ " is allowed."
                        else "Status " ++ status_text ++ " not allowed."))])
    end
  else
    Normal
      (VObj [("type", action); ("approved", VBool false);
             ("reason", VStr "Acción no soportada")]).

(** [app.post("/api/simulate", ...)] *)
Definition simulate (now : string) (req_body : value) : response :=
  let b := js_or req_body (VObj []) in
  let context := or_default (prop b "context") (VObj []) in
  let proposals := prop b "proposals" in
  let action := prop b "action" in
  let payload := prop b "payload" in
  match proposals with
  | VArr ps =>
      match map_throwing evaluate ps with
      | Some outcomes => simulation context (map outcome_value outcomes) now
      | None => error_json 500 "Error simulando propuestas"
      end
  | _ =>
      if truthy action && truthy payload then
        match simulate_action action payload with
        | Normal decision => simulation context [decision] now
        | Throw _ => error_json 500 "Error simulando propuestas"
        end
      else error_json 400 "Falta proposals[] o action+payload"
  end.

(** [app.get("/api/insights", ...)]: the last seven days by campaign. A
    failure of the remote call is answered 500 with a fixed text. *)
Definition get_insights : response :=
  match ensureEnv with
  | Some r => r
  | None =>
      match remote {| verb := "GET";
                      url := BASE (tpl AD_ACCOUNT_ID ++ "/insights");
                      params :=
                        [("level", VStr "campaign");
                         ("date_preset", VStr "last_7d");
                         ("fields",
                          VStr "campaign_name,impressions,clicks,spend")];
                      authorization := authHeader |} with
      | Replied data => json data
      | Failed _ => error_json 500 "No se pudieron obtener insights"
      end
  end.

(** [app.post("/api/ad_status", ...)] *)
Definition ad_status (req_body : value) : response :=
  match ensureEnv with
  | Some r => r
  | None =>
      let b := js_or req_body (VObj []) in
      let ad_id := prop b "ad_id" in
      let status := prop b "status" in
      if negb (truthy ad_id) || negb (truthy status) then
        error_json 400 "ad_id y status son requeridos"
      else
        match ToString rt ad_id with
        | Throw m => error_json 400 m
        | Normal id_text =>
            relay
              (remote {| verb := "POST";
                         url := BASE id_text;
                         params := [("status", status)];
                         authorization := authHeader |})
              (fun data => VObj [("updated", VBool true); ("meta", data)])
        end
  end.
End Handlers.
End BridgeV2.

(** ** The dashboard page *)

Module Dashboard.

Record HistoryItem : Type := {
  timestamp : string;
  endpoint : string;
  method : string;
  data : value;
  response : value;
  isError : bool
}.

Record ApiResponse : Type := {
  shown_data : value;
  shown_timestamp : string;
  shown_isError : bool
}.

(** The two pieces of state of the page that responses change:
    [requestHistory] and [selectedResponse]. *)
Record state : Type := {
  requestHistory : list HistoryItem;
  selectedResponse : option ApiResponse
}.

(** [useState([])] and [useState(null)]. *)
Definition initial : state :=
  {| requestHistory := []; selectedResponse := None |}.

(** [handleApiResponse(endpoint, method, requestData, response, isError)];
    [responseData] is [response] itself for an error and
    [await response.json()] otherwise, [iso] and [locale] are the two
    readings of the clock, [new Date().toISOString()] and
    [new Date().toLocaleString()]. *)
Definition handleApiResponse (iso locale : string) (endpoint method : string)
    (requestData responseData : value) (isError : bool) (st : state) : state :=
  let apiResponse :=
    {| shown_data := responseData; shown_timestamp := iso;
       shown_isError := isError |} in
  let historyItem :=
    {| timestamp := locale; endpoint := endpoint; method := method;
       data := requestData; response := responseData; isError := isError |} in
  {| requestHistory := historyItem :: firstn 9 (requestHistory st);
     selectedResponse := Some apiResponse |}.

Definition clearResponse (st : state) : state :=
  {| requestHistory := requestHistory st; selectedResponse := None |}.

Definition clearHistory (st : state) : state :=
  {| requestHistory := []; selectedResponse := selectedResponse st |}.

(** What happens to the page: a response arrives, or one of the two
    Clear buttons is pressed. *)
Inductive event : Type :=
| Responded (iso locale : string) (endpoint method : string)
    (requestData responseData : value) (isError : bool)
| ClearResponse
| ClearHistory.

Definition step (st : state) (ev : event) : state :=
  match ev with
  | Responded iso locale endpoint method requestData responseData isError =>
      handleApiResponse iso locale endpoint method requestData responseData
        isError st
  | ClearResponse => clearResponse st
  | ClearHistory => clearHistory st
  end.

(** The page after a sequence of events, the first one first. *)
Definition run (evs : list event) : state := fold_left step evs initial.

(** The history entry a response leaves. *)
Definition entry (ev : event) : option HistoryItem :=
  match ev with
  | Responded iso locale endpoint method requestData responseData isError =>
      Some {| timestamp := locale; endpoint := endpoint; method := method;
              data := requestData; response := responseData;
              isError := isError |}
  | ClearResponse | ClearHistory => None
  end.

(** The entries that a sequence of events leaves, the first one first. *)
Definition entries (evs : list event) : list HistoryItem :=
  flat_map (fun ev => match entry ev with Some h => [h] | None => [] end) evs.

End Dashboard.

(** ** Sample data

    A runtime, environments and a remote API on which the handlers are
    run on concrete requests. None of the requests below makes a handler
    format a number, parse a numeral or serialise a value, which is all the
    sample runtime leaves arbitrary; the message of its TypeError is the
    one of Node. *)

Definition sample_runtime : Runtime := {|
  NumberToString := fun _ => "0";
  StringToNumber := fun _ => PrimFloat.nan;
  JSON_stringify := fun _ => EmptyString;
  cannot_convert := "Cannot convert object to primitive value"
|}.

(** Every variable of the environment set. *)
Definition configured_env : env := {|
  META_GRAPH_VERSION := Some "v23.0";
  META_AD_ACCOUNT_ID := Some "act_1";
  META_ACCESS_TOKEN := Some "token";
  META_SYSTEM_USER_TOKEN := Some "token";
  ENV_BRIDGE_API_KEY := Some "s3cret"
|}.

(** The same with a blank [BRIDGE_API_KEY]. *)
Definition blank_key_env : env := {|
  META_GRAPH_VERSION := Some "v23.0";
  META_AD_ACCOUNT_ID := Some "act_1";
  META_ACCESS_TOKEN := Some "token";
  META_SYSTEM_USER_TOKEN := Some "token";
  ENV_BRIDGE_API_KEY := Some " "
|}.

(** The same without [BRIDGE_API_KEY]. *)
Definition keyless_env : env := {|
  META_GRAPH_VERSION := Some "v23.0";
  META_AD_ACCOUNT_ID := Some "act_1";
  META_ACCESS_TOKEN := Some "token";
  META_SYSTEM_USER_TOKEN := Some "token";
  ENV_BRIDGE_API_KEY := None
|}.

(** A remote API that accepts every call and replies with [{ data: [] }]. *)
Definition accepting_remote : remote_api :=
  fun _ => Replied (VObj [("data", VArr [])]).

(** Proposals: an increase of 40 %, a change to a status outside the
    policy, a type the simulator does not know, and a budget change whose
    fields are numeric strings. *)
Definition increase_40 : value :=
  VObj [("id", VStr "p1"); ("type", VStr "budget_change");
        ("delta_pct", VNum 40); ("new_daily_budget_eur", VNum 50)].

Definition to_deleted : value :=
  VObj [("id", VStr "p2"); ("type", VStr "status_change");
        ("new_status", VStr "DELETED")].

Definition bid_change : value :=
  VObj [("id", VStr "p3"); ("type", VStr "bid_change")].

Definition textual_budget : value :=
  VObj [("id", VStr "p4"); ("type", VStr "budget_change");
        ("delta_pct", VStr "0"); ("new_daily_budget_eur", VStr "0")].

(** Request bodies. *)
Definition simulate_body : value :=
  VObj [("context", VObj [("campaign", VStr "c1")]);
        ("proposals", VArr [increase_40; to_deleted; bid_change])].

Definition textual_body : value :=
  VObj [("proposals", VArr [textual_budget])].

Definition null_proposal_body : value :=
  VObj [("proposals", VArr [increase_40; VNull])].

Definition insights_without_dates : value :=
  VObj [("level", VStr "campaign"); ("fields", VStr "spend")].

Definition zero_budget : value :=
  VObj [("adset_id", VStr "120"); ("daily_budget_eur", VNum 0)].

(** Requests as the guard sees them. *)
Definition options_request : request :=
  {| method := "OPTIONS"; path := "/api/simulate"; x_api_key := Some "wrong" |}.

Definition post_wrong_key : request :=
  {| method := "POST"; path := "/api/simulate"; x_api_key := Some "wrong" |}.

Definition post_no_key : request :=
  {| method := "POST"; path := "/api/adset_budget"; x_api_key := None |}.


Definition increase_40_annotated : value :=
  VObj [("note", VStr "urgent"); ("id", VStr "p1");
        ("type", VStr "budget_change"); ("delta_pct", VNum 40);
        ("new_daily_budget_eur", VNum 50); ("approved", VBool true)].

(** Bodies of the mode [action + payload], and one that has both
    modes. *)
Definition pause_action : value :=
  VObj [("action", VStr "ad_status");
        ("payload", VObj [("ad_id", VStr "77"); ("status", VStr "PAUSED")])].

Definition empty_proposals_with_action : value :=
  VObj [("proposals", VArr []); ("action", VStr "ad_status");
        ("payload", VObj [("status", VStr "PAUSED")])].

(** An environment without any token, and one without anything. *)
Definition tokenless_env : env := {|
  META_GRAPH_VERSION := None;
  META_AD_ACCOUNT_ID := Some "act_1";
  META_ACCESS_TOKEN := None;
  META_SYSTEM_USER_TOKEN := None;
  ENV_BRIDGE_API_KEY := None
|}.

(** Bodies of the two update endpoints. *)
Definition textual_amount : value :=
  VObj [("adset_id", VStr "120"); ("daily_budget_eur", VStr "abc")].

Definition fifty_euros : value :=
  VObj [("adset_id", VStr "120"); ("daily_budget_eur", VNum 50)].

Definition archive_ad : value :=
  VObj [("ad_id", VStr "77"); ("status", VStr "ARCHIVED")].

Definition delete_ad : value :=
  VObj [("ad_id", VStr "77"); ("status", VStr "DELETED")].

(** An ad id that has no text: an object with a member [toString]. *)
Definition textless_id : value := VObj [("toString", VNull)].

Definition archive_textless : value :=
  VObj [("ad_id", textless_id); ("status", VStr "ARCHIVED")].

Definition insights_with_preset : value :=
  VObj [("date_preset", VStr "last_30d"); ("since", VStr "2025-01-01")].

(** A request with the right key. *)
Definition post_right_key : request :=
  {| method := "POST"; path := "/api/simulate"; x_api_key := Some "s3cret" |}.

(** Twelve responses arriving at the dashboard, numbered by their
    endpoint. *)
Definition arrival (n : string) : Dashboard.event :=
  Dashboard.Responded "2025-01-01T00:00:00.000Z" "1/1/2025, 0:00:00" n "POST"
    (VObj []) (VObj []) false.

Definition twelve_arrivals : list Dashboard.event :=
  map arrival ["1"; "2"; "3"; "4"; "5"; "6"; "7"; "8"; "9"; "10"; "11"; "12"].

(** A complete insights request. *)
Definition insights_january : value :=
  VObj [("since", VStr "2025-01-01"); ("until", VStr "2025-01-31");
        ("level", VStr "campaign"); ("breakdowns", VStr "age")].

(** ** What the specification calls the rules *)

(** [n] is below the minimum daily budget of 1 EUR. *)
Definition below_minimum (n : float) : bool := (n <? 1)%float.

(** [d] is below -30 or above 30. *)
Definition outside_thresholds (d : float) : bool :=
  ((d <? -30) || (30 <? d))%float.


(** The [results] member of a reply, empty when it has none. *)
Definition results_of (r : response) : list value :=
  match prop (body r) "results" with
  | VArr results => results
  | _ => []
  end.

(** A handler answers [r] by itself: whatever the remote API would reply,
    it is not asked. *)
Definition answers_alone (handler : remote_api -> response) (r : response)
    : Prop :=
  forall remote, handler remote = r.

(** A handler makes the one call [req] and turns its outcome into the
    reply with [finish]. *)
Definition calls (handler : remote_api -> response) (req : remote_request)
    (finish : remote_reply -> response) : Prop :=
  forall remote, handler remote = finish (remote req).

(** The key of a forwarded parameter. *)
Definition has_param (k : string) (req : remote_request) : bool :=
  existsb (fun kv => String.eqb k (fst kv)) (params req).

(** The texts with which the proposals mode rejects. *)
Definition rejection_texts : list string :=
  ["Presupuesto < mínimo (1 EUR)"; "delta_pct fuera de umbral (+30/-30)";
   "Estado no permitido"; "Tipo no soportado"].

(** The fields of a proposal that the simulator reads. *)
Definition proposal_fields : list string :=
  ["id"; "type"; "delta_pct"; "new_daily_budget_eur"; "new_status"].

(** The values on which reading [p.id] throws. *)
Definition nullish (p : value) : Prop := p = VNull \/ p = VUndefined.

(** * Properties *)

(** ** Values and floats *)

Lemma get_prop (p : value) (k : string) (v : value) :
  get p k = Some v -> forall k', get p k' = Some (prop p k').
Proof.
  intros H k'. unfold prop. destruct p; simpl in *; congruence.
Qed.

Lemma get_nullish (p : value) (k : string) : get p k = None <-> nullish p.
Proof.
  unfold nullish. destruct p; simpl; split; intros H;
    try discriminate; try reflexivity; auto; destruct H; discriminate.
Qed.

Lemma Prim2SF_is_nan (x : float) :
  PrimFloat.is_nan x = false -> Prim2SF x <> S754_nan.
Proof.
  intros H. unfold Prim2SF. rewrite H.
  destruct (PrimFloat.is_zero x); [discriminate|].
  destruct (PrimFloat.is_infinity x); [discriminate|].
  destruct (Z.frexp x) as [r ex].
  destruct (shr_fexp prec emax _ _ _) as [shr e'].
  destruct (shr_m shr); discriminate.
Qed.





(** ** The policy simulator, one proposal at a time *)

(** The callback on a proposal whose [type] can be read. *)
Lemma evaluate_typed (p p_type : value) :
  get p "type" = Some p_type ->
  BridgeV2.evaluate p =
    let o := {| out_id := prop p "id"; out_type := p_type;
                approved := false; reason := EmptyString |} in
    Some
      (if is_string p_type "budget_change" then
         BridgeV2.budget_change o (prop p "delta_pct")
           (prop p "new_daily_budget_eur")
       else if is_string p_type "status_change" then
         BridgeV2.status_change o (prop p "new_status")
       else set_reason o "Tipo no soportado").
Proof.
  intros H. unfold BridgeV2.evaluate.
  now rewrite (get_prop p "type" p_type H "id"), H.
Qed.

(** It throws on [null] and [undefined] only. *)
Lemma evaluate_throws (p : value) :
  BridgeV2.evaluate p = None <-> nullish p.
Proof.
  rewrite <- (get_nullish p "id"). unfold BridgeV2.evaluate.
  destruct (get p "id") eqn:E.
  - rewrite (get_prop p "id" v E "type"). split; discriminate.
  - split; reflexivity.
Qed.

Lemma budget_change_approved (o : outcome) (dp nd : value) :
  approved o = false ->
  approved (BridgeV2.budget_change o dp nd) =
    negb (match nd with VNum n => below_minimum n | _ => false end
          || match dp with VNum d => outside_thresholds d | _ => false end).
Proof.
  intros Ho. unfold BridgeV2.budget_change, below_minimum, outside_thresholds.
  simpl maxIncreasePct. simpl maxDecreasePct. simpl minDailyBudgetEur.
  change (- (30))%float with (-30)%float.
  destruct nd as [| | |n| | |], dp as [| | |d| | |]; simpl;
    try assumption; try reflexivity;
    try (destruct (n <? 1)%float; simpl; try assumption; try reflexivity);
    rewrite (orb_comm (d <? -30)%float);
    destruct ((30 <? d) || (d <? -30))%float; simpl; assumption || reflexivity.
Qed.



(** The callback on a proposal whose [type] is neither
    ["budget_change"] nor ["status_change"] rejects, and the reason is the
    text ["Tipo no soportado"]. *)
Lemma callback_unsupported_type (p p_type : value) :
  get p "type" = Some p_type ->
  is_string p_type "budget_change" = false ->
  is_string p_type "status_change" = false ->
  BridgeV2.evaluate p =
    Some {| out_id := prop p "id"; out_type := p_type;
            approved := false; reason := "Tipo no soportado" |}.
Proof.
  intros Ht Hb Hs. rewrite (evaluate_typed p _ Ht). cbv zeta.
  now rewrite Hb, Hs.
Qed.

(** The callback on a [budget_change] proposal in which neither
    [new_daily_budget_eur] nor [delta_pct] is a number (absent, or of
    another type such as the string ["0"]) approves with reason ["OK"];
    each threshold applies only to a field that is a number. *)
Lemma callback_non_numeric (p : value) :
  get p "type" = Some (VStr "budget_change") ->
  exists o,
    BridgeV2.evaluate p = Some o
    /\ (is_number (prop p "new_daily_budget_eur") = false ->
        is_number (prop p "delta_pct") = false ->
        o = {| out_id := prop p "id"; out_type := VStr "budget_change";
               approved := true; reason := "OK" |})
    /\ (is_number (prop p "new_daily_budget_eur") = false ->
        forall d, prop p "delta_pct" = VNum d ->
                  approved o = negb (outside_thresholds d))
    /\ (is_number (prop p "delta_pct") = false ->
        forall n, prop p "new_daily_budget_eur" = VNum n ->
                  approved o = negb (below_minimum n)).
Proof.
  intros Ht. rewrite (evaluate_typed p _ Ht). cbv zeta.
  change (is_string (VStr "budget_change") "budget_change") with true.
  cbv iota. eexists. split; [reflexivity|]. repeat split.
  - intros Hn Hd. unfold BridgeV2.budget_change.
    destruct (prop p "new_daily_budget_eur"); try discriminate Hn;
      destruct (prop p "delta_pct"); try discriminate Hd; reflexivity.
  - intros Hn d Hd. rewrite budget_change_approved by reflexivity.
    rewrite Hd. destruct (prop p "new_daily_budget_eur");
      try discriminate Hn; reflexivity.
  - intros Hd n Hn. rewrite budget_change_approved by reflexivity.
    rewrite Hn. destruct (prop p "delta_pct");
      try discriminate Hd; now rewrite orb_false_r.
Qed.

(** ** The policy simulator, a list of proposals *)

Lemma map_throwing_Forall2 {A B : Type} (f : A -> option B) (l : list A)
    (bs : list B) :
  map_throwing f l = Some bs -> Forall2 (fun a b => f a = Some b) l bs.
Proof.
  revert bs. induction l as [|a l IH]; simpl; intros bs H.
  - injection H as <-. constructor.
  - destruct (f a) as [b|] eqn:Ea; [|discriminate].
    destruct (map_throwing f l) as [bs'|]; [|discriminate].
    injection H as <-. constructor; auto.
Qed.

Lemma map_throwing_None {A B : Type} (f : A -> option B) (l : list A) :
  Exists (fun a => f a = None) l -> map_throwing f l = None.
Proof.
  induction 1 as [a l Ha | a l _ IH]; simpl.
  - now rewrite Ha.
  - rewrite IH. now destruct (f a).
Qed.

(** The map goes through when no proposal is [null]. *)
Lemma map_throwing_evaluate (ps : list value) :
  Forall (fun p => ~ nullish p) ps ->
  exists outcomes, map_throwing BridgeV2.evaluate ps = Some outcomes.
Proof.
  induction 1 as [|p ps Hp _ IH]; simpl; [eauto|].
  destruct (BridgeV2.evaluate p) as [o|] eqn:E.
  - destruct IH as [os ->]. eauto.
  - apply evaluate_throws in E. contradiction.
Qed.

(** C6, as the code has it. On a request with a [proposals] array none of
    whose elements is [null] the handler applies the
    callback to each proposal in turn: the results are the decisions of
    the proposals, in the same number and order, each the value of
    [BridgeV2.evaluate] (a function of the proposal and of
    [DEFAULT_POLICY] alone) on the proposal at the same position; the reply
    carries the request's [context] ([{}] when there is none) as
    [contextEcho] and the policy snapshot, and depends on nothing but the
    body and the clock. The one other outcome is the 500 reply, when a
    proposal is [null] and reading its [id] throws. *)
Theorem simulate_maps_proposals (rt : Runtime) (now : string)
    (req_body : value) (ps : list value) :
  prop (js_or req_body (VObj [])) "proposals" = VArr ps ->
  let context :=
    or_default (prop (js_or req_body (VObj [])) "context") (VObj []) in
  (Forall (fun p => ~ nullish p) ps ->
   exists outcomes,
     Forall2 (fun p o => BridgeV2.evaluate p = Some o) ps outcomes
     /\ List.length outcomes = List.length ps
     /\ BridgeV2.simulate rt now req_body =
          json (VObj [("mode", VStr "simulation");
                      ("contextEcho", context);
                      ("policy", BridgeV2.policy_snapshot);
                      ("results", VArr (map outcome_value outcomes));
                      ("timestamp", VStr now)]))
  /\ (Exists nullish ps ->
      BridgeV2.simulate rt now req_body =
        error_json 500 "Error simulando propuestas").
Proof.
  intros Hps context. unfold BridgeV2.simulate. rewrite Hps. split.
  - intros Hall. destruct (map_throwing_evaluate ps Hall) as [outcomes E].
    rewrite E. exists outcomes.
    pose proof (map_throwing_Forall2 _ _ _ E) as HF.
    repeat split; [exact HF | symmetry; exact (Forall2_length HF)].
  - intros Hex.
    rewrite (map_throwing_None BridgeV2.evaluate ps); [reflexivity|].
    apply Exists_exists in Hex. destruct Hex as (p & Hin & Hp).
    apply Exists_exists. exists p. split; [exact Hin|].
    now apply evaluate_throws.
Qed.

(** The decision at position [i] of the reply is the decision of the
    callback on the proposal at position [i]. *)
Lemma simulate_decision (rt : Runtime) (now : string) (req_body : value)
    (ps : list value) (i : nat) (p : value) :
  prop (js_or req_body (VObj [])) "proposals" = VArr ps ->
  Forall (fun p => ~ nullish p) ps ->
  nth_error ps i = Some p ->
  exists o,
    BridgeV2.evaluate p = Some o
    /\ nth_error (results_of (BridgeV2.simulate rt now req_body)) i
       = Some (outcome_value o).
Proof.
  intros Hps Hall Hi. unfold BridgeV2.simulate. rewrite Hps.
  destruct (map_throwing_evaluate ps Hall) as [outcomes E]. rewrite E.
  apply map_throwing_Forall2 in E.
  unfold results_of, BridgeV2.simulation. simpl.
  clear Hps Hall. revert i Hi.
  induction E as [|p0 o0 ps outcomes Hp0 _ IH]; intros [|i] Hi;
    simpl in *; try discriminate.
  - injection Hi as <-. eauto.
  - now apply IH.
Qed.

(** The decision that [POST /api/simulate] returns for the proposal at
    position [i]: whatever is returned there is the decision of the
    callback on that proposal; it is returned, with status 200, whenever
    no proposal of the list is [null]; otherwise the reply is the 500 one
    and carries no decision. *)
Lemma returned_decision (rt : Runtime) (now : string) (req_body : value)
    (ps : list value) (i : nat) (p : value) (o : outcome) :
  prop (js_or req_body (VObj [])) "proposals" = VArr ps ->
  nth_error ps i = Some p ->
  BridgeV2.evaluate p = Some o ->
  let r := BridgeV2.simulate rt now req_body in
  (forall decision,
      nth_error (results_of r) i = Some decision ->
      decision = outcome_value o)
  /\ (Forall (fun q => ~ nullish q) ps ->
      status r = 200%Z
      /\ nth_error (results_of r) i = Some (outcome_value o))
  /\ (Exists nullish ps ->
      r = error_json 500 "Error simulando propuestas"
      /\ results_of r = []).
Proof.
  intros Hps Hi Ho r. subst r. unfold BridgeV2.simulate. rewrite Hps.
  destruct (map_throwing BridgeV2.evaluate ps) as [outcomes|] eqn:E.
  - assert (Hnth : nth_error outcomes i = Some o).
    { apply map_throwing_Forall2 in E. clear Hps. revert i Hi.
      induction E as [|p0 o0 ps outcomes Hp0 _ IH]; intros [|i] Hi;
        simpl in *; try discriminate.
      - injection Hi as ->. congruence.
      - now apply IH. }
    assert (Hres : nth_error
                     (results_of
                        (BridgeV2.simulation
                           (or_default
                              (prop (js_or req_body (VObj [])) "context")
                              (VObj []))
                           (map outcome_value outcomes) now)) i
                   = Some (outcome_value o)).
    { unfold results_of, BridgeV2.simulation. simpl.
      now rewrite nth_error_map, Hnth. }
    split; [|split].
    + intros decision Hd. rewrite Hres in Hd. now injection Hd as <-.
    + intros _. split; [reflexivity | exact Hres].
    + intros Hex. exfalso.
      assert (Hnone : map_throwing BridgeV2.evaluate ps = None).
      { apply map_throwing_None. apply Exists_exists in Hex.
        destruct Hex as (q & Hin & Hq). apply Exists_exists.
        exists q. split; [exact Hin | now apply evaluate_throws]. }
      congruence.
  - split; [|split].
    + intros decision Hd. unfold results_of in Hd. simpl in Hd.
      destruct i; discriminate Hd.
    + intros Hall. destruct (map_throwing_evaluate ps Hall) as [os Hos].
      congruence.
    + intros _. now split.
Qed.



(** C5, as the code has it. For a request with a [proposals] list and a
    proposal at position [i] of it whose [type] is neither
    ["budget_change"] nor ["status_change"]: the decision is rejected with
    the reason ["Tipo no soportado"]; any decision the handler returns at
    position [i] is this one, and the handler returns it, with status 200,
    whenever no proposal of the list is [null] (it answers 500 without any
    decision otherwise). *)
Theorem unsupported_type_rejected (rt : Runtime) (now : string)
    (req_body : value) (ps : list value) (i : nat) (p p_type : value) :
  prop (js_or req_body (VObj [])) "proposals" = VArr ps ->
  nth_error ps i = Some p ->
  get p "type" = Some p_type ->
  is_string p_type "budget_change" = false ->
  is_string p_type "status_change" = false ->
  let r := BridgeV2.simulate rt now req_body in
  let o := {| out_id := prop p "id"; out_type := p_type;
              approved := false; reason := "Tipo no soportado" |} in
  (forall decision,
      nth_error (results_of r) i = Some decision ->
      decision = outcome_value o)
  /\ (Forall (fun q => ~ nullish q) ps ->
      status r = 200%Z
      /\ nth_error (results_of r) i = Some (outcome_value o))
  /\ (Exists nullish ps ->
      r = error_json 500 "Error simulando propuestas"
      /\ results_of r = []).
Proof.
  intros Hps Hi Ht Hb Hs r o.
  exact (returned_decision rt now req_body ps i p o Hps Hi
           (callback_unsupported_type p p_type Ht Hb Hs)).
Qed.

(** C8. For a request with a [proposals] list and the [budget_change]
    proposal at position [i] of it: when neither [new_daily_budget_eur]
    nor [delta_pct] is a number (absent, or of another type such as the
    string ["0"]) the decision is approved with reason ["OK"], and each
    threshold applies only to a field that is a number; any decision the
    handler returns at position [i] is this one, and the handler returns
    it, with status 200, whenever no proposal of the list is [null] (it
    answers 500 without any decision otherwise). *)
Theorem budget_change_non_numeric_approved (rt : Runtime) (now : string)
    (req_body : value) (ps : list value) (i : nat) (p : value) :
  prop (js_or req_body (VObj [])) "proposals" = VArr ps ->
  nth_error ps i = Some p ->
  get p "type" = Some (VStr "budget_change") ->
  let r := BridgeV2.simulate rt now req_body in
  exists o,
    (is_number (prop p "new_daily_budget_eur") = false ->
     is_number (prop p "delta_pct") = false ->
     o = {| out_id := prop p "id"; out_type := VStr "budget_change";
            approved := true; reason := "OK" |})
    /\ (is_number (prop p "new_daily_budget_eur") = false ->
        forall d, prop p "delta_pct" = VNum d ->
                  approved o = negb (outside_thresholds d))
    /\ (is_number (prop p "delta_pct") = false ->
        forall n, prop p "new_daily_budget_eur" = VNum n ->
                  approved o = negb (below_minimum n))
    /\ (forall decision,
          nth_error (results_of r) i = Some decision ->
          decision = outcome_value o)
    /\ (Forall (fun q => ~ nullish q) ps ->
        status r = 200%Z
        /\ nth_error (results_of r) i = Some (outcome_value o))
    /\ (Exists nullish ps ->
        r = error_json 500 "Error simulando propuestas"
        /\ results_of r = []).
Proof.
  intros Hps Hi Ht r.
  destruct (callback_non_numeric p Ht) as (o & Ho & Hok & Hd & Hn).
  exists o. split; [exact Hok|]. split; [exact Hd|]. split; [exact Hn|].
  exact (returned_decision rt now req_body ps i p o Hps Hi Ho).
Qed.

(** ** The conversion of euros to cents *)

(** [half_up v n] is the integer nearest to [v / 2^n], the tie
    [k - 1/2] going up to [k]. *)
Lemma half_up_spec (v n : Z) :
  (0 < n)%Z ->
  let k := half_up v n in
  (2 * k * 2 ^ n - 2 ^ n <= 2 * v < 2 * k * 2 ^ n + 2 ^ n)%Z.
Proof.
  intros Hn k. subst k. unfold half_up.
  assert (Hp : (2 ^ n = 2 * 2 ^ (n - 1))%Z).
  { rewrite <- Z.pow_succ_r by lia. f_equal. lia. }
  assert (Hh : (0 < 2 ^ (n - 1))%Z) by (apply Z.pow_pos_nonneg; lia).
  set (h := (2 ^ (n - 1))%Z) in *. rewrite Hp.
  pose proof (Z.mul_div_le (v + h) (2 * h) ltac:(lia)) as Hle.
  pose proof (Z.mul_succ_div_gt (v + h) (2 * h) ltac:(lia)) as Hgt.
  set (q := ((v + h) / (2 * h))%Z) in *. nia.
Qed.

Lemma binary_round_aux_sign (s : bool) (mx ex : Z) (lx : location)
    (s' : bool) (m' : positive) (e' : Z) :
  binary_round_aux prec emax s mx ex lx = S754_finite s' m' e' -> s' = s.
Proof.
  unfold binary_round_aux.
  destruct (shr_fexp prec emax mx ex lx) as [mrs1 e1].
  destruct (shr_fexp prec emax _ e1 loc_Exact) as [mrs2 e2].
  destruct (shr_m mrs2); try discriminate.
  destruct (e2 <=? emax - prec)%Z; [|discriminate].
  now intros [= <- _ _].
Qed.

Lemma nonneg_sign (x : float) (s : bool) (m : positive) (e : Z) :
  (0 <=? x)%float = true -> Prim2SF x = S754_finite s m e -> s = false.
Proof.
  rewrite leb_spec. intros H Hx. rewrite Hx in H.
  change (Prim2SF 0) with (S754_zero false) in H.
  destruct s; [discriminate H | reflexivity].
Qed.

Lemma nonneg_not_nan (x : float) :
  (0 <=? x)%float = true -> PrimFloat.is_nan x = false.
Proof.
  rewrite leb_spec. intros H.
  destruct (PrimFloat.is_nan x) eqn:E; [|reflexivity].
  unfold Prim2SF in H. rewrite E in H. discriminate H.
Qed.

(** The binary64 product of two non-negative numbers has no sign bit. *)
Lemma mul_nonneg_sign (x y : float) (s : bool) (m : positive) (e : Z) :
  (0 <=? x)%float = true -> (0 <=? y)%float = true ->
  Prim2SF (x * y) = S754_finite s m e -> s = false.
Proof.
  intros Hx Hy. rewrite mul_spec. unfold SF64mul, SFmul.
  destruct (Prim2SF x) as [sx|sx| |sx mx ex] eqn:Ex;
    destruct (Prim2SF y) as [sy|sy| |sy my ey] eqn:Ey; try discriminate.
  intros H. apply binary_round_aux_sign in H. subst s.
  now rewrite (nonneg_sign x sx mx ex Hx Ex), (nonneg_sign y sy my ey Hy Ey).
Qed.

(** The two roundings agree on every number without a sign bit. *)
Lemma round_nonneg (v : float) :
  (forall s m e, Prim2SF v = S754_finite s m e -> s = false) ->
  Math_round v = round_half_away_from_zero v.
Proof.
  intros H. unfold Math_round, round_half_away_from_zero.
  destruct (Prim2SF v) as [s|s| |s m e]; try reflexivity.
  now rewrite (H s m e eq_refl).
Qed.

(** C2, as the code has it. Both conversions map a number [x] to
    [Math.round] of the binary64 product [x * 100], the nearest integer
    with a tie going towards [+Infinity]; for every non-negative [x] this
    is the product rounded half away from zero. *)
Theorem toCents_round_half_up (rt : Runtime) (x : float) :
  PrimFloat.is_nan x = false ->
  BridgeV2.toCents rt (VNum x) = Normal (VNum (Math_round (x * 100)))
  /\ RoutesTs.converted_budget_cents rt (VNum x)
     = Normal (Math_round (x * 100))
  /\ ((0 <=? x)%float = true ->
      BridgeV2.toCents rt (VNum x)
        = Normal (VNum (round_half_away_from_zero (x * 100)))
      /\ RoutesTs.converted_budget_cents rt (VNum x)
        = Normal (round_half_away_from_zero (x * 100))).
Proof.
  intros Hx.
  assert (Hc : BridgeV2.toCents rt (VNum x)
               = Normal (VNum (Math_round (x * 100)))).
  { unfold BridgeV2.toCents. simpl ToNumber. cbv iota. now rewrite Hx. }
  split; [exact Hc|]. split; [reflexivity|]. intros H0.
  assert (Hr : Math_round (x * 100) = round_half_away_from_zero (x * 100)).
  { apply round_nonneg. intros s m e.
    now apply (mul_nonneg_sign x 100 s m e). }
  split; [now rewrite Hc, Hr|].
  unfold RoutesTs.converted_budget_cents. simpl ToNumber. cbv iota.
  now rewrite Hr.
Qed.

(** ** Required fields *)

(** C3, as the code has it. In [server/routes.ts] a body of
    [POST /api/insights] in which [since] or [until] is missing (or
    falsy) is answered 400, whatever the other fields, the environment and
    the remote API. The second server script, once its environment is
    complete, forwards such a body without [time_range] (with
    [date_preset] when the body has one) and relays the remote reply; the
    first server script forwards it with an undefined [time_range]. *)
Theorem routes_insights_requires_dates (rt : Runtime) (e : env)
    (remote : remote_api) (req_body : value) :
  let b := js_or req_body (VObj []) in
  truthy (prop b "since") = false \/ truthy (prop b "until") = false ->
  RoutesTs.insights rt e remote req_body =
    error_json 400 "since and until dates are required"
  /\ (BridgeV2.hasEssentialEnv e = true ->
      BridgeV2.insights rt e remote req_body =
        BridgeV2.relay
          (remote
             {| verb := "GET";
                url := BridgeV2.BASE e
                         (tpl (BridgeV2.AD_ACCOUNT_ID e) ++ "/insights");
                params :=
                  ([("level", or_default (prop b "level") (VStr "ad"));
                    ("time_increment",
                     or_default (prop b "time_increment") (VStr "1"));
                    ("fields", js_or (prop b "fields") (VStr default_fields))]
                   ++ (if truthy (prop b "breakdowns")
                       then [("breakdowns", prop b "breakdowns")] else [])
                   ++ (if truthy (prop b "date_preset")
                       then [("date_preset", prop b "date_preset")]
                       else []))%list;
                authorization := BridgeV2.authHeader e |})
          (fun data => data))
  /\ BridgeV1.insights rt e remote req_body =
       BridgeV1.relay
         (remote
            {| verb := "GET";
               url := BridgeV1.BASE e
                        (tpl (BridgeV1.AD_ACCOUNT_ID e) ++ "/insights");
               params :=
                 ([("level", or_default (prop b "level") (VStr "ad"));
                   ("time_range", VUndefined);
                   ("time_increment",
                    or_default (prop b "time_increment") (VStr "1"));
                   ("fields", js_or (prop b "fields") (VStr default_fields))]
                  ++ (if truthy (prop b "breakdowns")
                      then [("breakdowns", prop b "breakdowns")] else []))%list;
               authorization := BridgeV1.bearer e |})
         (fun data => data).
Proof.
  intros b H.
  assert (Hboth : truthy (prop b "since") && truthy (prop b "until") = false).
  { destruct H as [H|H]; rewrite H; [reflexivity | apply andb_false_r]. }
  split; [|split].
  - unfold RoutesTs.insights. fold b.
    destruct H as [H|H]; rewrite H; simpl; [reflexivity|].
    now rewrite orb_true_r.
  - intros Henv. unfold BridgeV2.insights, BridgeV2.ensureEnv.
    rewrite Henv. simpl negb. cbv iota. fold b. cbv zeta.
    now rewrite Hboth.
  - unfold BridgeV1.insights. fold b. cbv zeta. now rewrite Hboth.
Qed.

(** C10. In [server/routes.ts] a body of [POST /api/adset_budget] whose
    [daily_budget_eur] is [0], or any falsy value, is answered 400 with
    the message that both fields are required; the second server script,
    which tests [daily_budget_eur === undefined], takes [0]: it converts
    it to 0 cents and sends [daily_budget = 0] to the remote API for the
    ad set whose id is the text of [adset_id] (when [adset_id] has no
    text, the TypeError is answered 400 with its message). *)
Theorem adset_budget_zero (rt : Runtime) (e : env) (remote : remote_api)
    (req_body : value) :
  truthy (prop (js_or req_body (VObj [])) "daily_budget_eur") = false ->
  RoutesTs.adset_budget rt e remote req_body =
    error_json 400 "adset_id and daily_budget_eur are required"
  /\ (prop (js_or req_body (VObj [])) "daily_budget_eur" = VNum 0 ->
      truthy (prop (js_or req_body (VObj [])) "adset_id") = true ->
      BridgeV2.hasEssentialEnv e = true ->
      BridgeV2.toCents rt (VNum 0) = Normal (VNum 0)
      /\ BridgeV2.adset_budget rt e remote req_body =
           match ToString rt (prop (js_or req_body (VObj [])) "adset_id") with
           | Normal id_text =>
               BridgeV2.relay
                 (remote
                    {| verb := "POST";
                       url := BridgeV2.BASE e id_text;
                       params := [("daily_budget", VNum 0)];
                       authorization := BridgeV2.authHeader e |})
                 (fun data => VObj [("updated", VBool true); ("meta", data)])
           | Throw m => error_json 400 m
           end).
Proof.
  intros Hf. split.
  - unfold RoutesTs.adset_budget. rewrite Hf. simpl.
    now rewrite orb_true_r.
  - intros Hz Hid Henv. split; [reflexivity|].
    unfold BridgeV2.adset_budget, BridgeV2.ensureEnv.
    rewrite Henv, Hid, Hz. reflexivity.
Qed.

(** ** The API-key guard *)

Lemma same_key_eq (key : option string) (secret : string) :
  BridgeV1.same_key key (Some secret) = true <-> key = Some secret.
Proof.
  destruct key as [k|]; simpl.
  - rewrite String.eqb_eq. split; congruence.
  - split; discriminate.
Qed.

Lemma secret_truthy (secret : string) :
  secret <> EmptyString -> str_truthy (Some secret) = true.
Proof.
  intros H. simpl. now destruct (String.eqb_spec secret EmptyString).
Qed.

(** C7, as the code has it. When [BRIDGE_API_KEY] is set, the first guard
    compares the header with its value and the second one with its value
    trimmed. With a non-empty secret, a request to a path other than
    [/api/health] (and, for the second guard, other than [/healthz], with
    a method other than OPTIONS) is answered 401 when its [X-API-Key]
    header is missing or differs from the secret. The second guard passes
    every OPTIONS request, and every request when the key is blank; a
    request to [/api/health] passes both guards whatever its key. *)
Theorem guard_unauthorized (e : env) (req : request) (raw : string) :
  ENV_BRIDGE_API_KEY e = Some raw ->
  (raw <> EmptyString ->
   path req <> "/api/health" ->
   x_api_key req <> Some raw ->
   BridgeV1.guard e req = Respond (error_json 401 "Unauthorized"))
  /\ (trim raw <> EmptyString ->
      path req <> "/api/health" ->
      path req <> "/healthz" ->
      method req <> "OPTIONS" ->
      x_api_key req <> Some (trim raw) ->
      BridgeV2.guard e req = Respond (error_json 401 "Unauthorized"))
  /\ (trim raw = EmptyString -> BridgeV2.guard e req = Next)
  /\ (forall (e' : env) (preflight : request),
        method preflight = "OPTIONS" -> BridgeV2.guard e' preflight = Next)
  /\ (forall (e' : env) (health : request),
        path health = "/api/health" ->
        BridgeV1.guard e' health = Next /\ BridgeV2.guard e' health = Next).
Proof.
  intros Hraw.
  assert (Hsame : forall secret,
             x_api_key req <> Some secret ->
             BridgeV1.same_key (x_api_key req) (Some secret) = false).
  { intros secret Hk. destruct (BridgeV1.same_key _ _) eqn:E; [|reflexivity].
    apply same_key_eq in E. contradiction. }
  split; [|split; [|split; [|split]]].
  - intros Hs Hp Hk. apply String.eqb_neq in Hp.
    unfold BridgeV1.guard, BridgeV1.BRIDGE_API_KEY. simpl existsb.
    rewrite Hp, Hraw, (secret_truthy raw Hs), (Hsame raw Hk). reflexivity.
  - intros Hs Hp1 Hp2 Hm Hk. apply String.eqb_neq in Hp1, Hp2, Hm.
    unfold BridgeV2.guard, BridgeV2.BRIDGE_API_KEY. simpl existsb.
    rewrite Hp1, Hp2, Hm, Hraw. simpl opt_trim.
    rewrite (secret_truthy (trim raw) Hs), (Hsame (trim raw) Hk).
    now rewrite andb_false_r.
  - intros Hblank. unfold BridgeV2.guard, BridgeV2.BRIDGE_API_KEY.
    destruct (existsb _ _); [reflexivity|].
    destruct (String.eqb _ _); [reflexivity|].
    rewrite Hraw. simpl opt_trim. rewrite Hblank. reflexivity.
  - intros e' preflight Hm. unfold BridgeV2.guard.
    destruct (existsb _ _); [reflexivity|]. now rewrite Hm.
  - intros e' health Hh. split.
    + unfold BridgeV1.guard. now rewrite Hh.
    + unfold BridgeV2.guard. now rewrite Hh.
Qed.

(** C9. When [BRIDGE_API_KEY] is unset or empty, both guards pass every
    request: to every path, with any method and any key or none. *)
Theorem guard_open_without_key (e : env) (req : request) :
  ENV_BRIDGE_API_KEY e = None \/ ENV_BRIDGE_API_KEY e = Some EmptyString ->
  BridgeV1.guard e req = Next /\ BridgeV2.guard e req = Next.
Proof.
  intros H. split.
  - unfold BridgeV1.guard, BridgeV1.BRIDGE_API_KEY.
    destruct (existsb _ _); [reflexivity|].
    destruct H as [-> | ->]; reflexivity.
  - unfold BridgeV2.guard, BridgeV2.BRIDGE_API_KEY.
    destruct (existsb _ _); [reflexivity|].
    destruct (String.eqb _ _); [reflexivity|].
    destruct H as [-> | ->]; reflexivity.
Qed.

(** ** The model on concrete inputs *)

Example round_ties :
  Math_round 2.5 = 3%float /\ Math_round (-2.5) = (-2)%float
  /\ Math_round (-0.25) = (-0)%float /\ Math_round 1250 = 1250%float
  /\ round_half_away_from_zero 2.5 = 3%float
  /\ round_half_away_from_zero (-2.5) = (-3)%float.
Proof. repeat split. Qed.

Example trim_spaces :
  trim "  s3cret " = "s3cret" /\ trim EmptyString = EmptyString /\ trim " " = EmptyString.
Proof. repeat split. Qed.

(** The thresholds are inclusive: +30 % and -30 % pass, a budget of
    exactly 1 EUR passes, 0.5 EUR does not. *)
Example thresholds_inclusive :
  BridgeV2.budget_change
    {| out_id := VStr "a"; out_type := VStr "budget_change";
       approved := false; reason := EmptyString |} (VNum 30) (VNum 1)
  = {| out_id := VStr "a"; out_type := VStr "budget_change";
       approved := true; reason := "OK" |}
  /\ BridgeV2.budget_change
       {| out_id := VStr "a"; out_type := VStr "budget_change";
          approved := false; reason := EmptyString |} (VNum (-30)) VUndefined
     = {| out_id := VStr "a"; out_type := VStr "budget_change";
          approved := true; reason := "OK" |}
  /\ BridgeV2.budget_change
       {| out_id := VStr "a"; out_type := VStr "budget_change";
          approved := false; reason := EmptyString |} (VNum 0) (VNum 0.5)
     = {| out_id := VStr "a"; out_type := VStr "budget_change";
          approved := false; reason := "Presupuesto < mínimo (1 EUR)" |}.
Proof. repeat split. Qed.

(** The reply to the sample batch. *)
Example simulate_sample :
  BridgeV2.simulate sample_runtime "2025-01-01T00:00:00.000Z" simulate_body
  = json
      (VObj
         [("mode", VStr "simulation");
          ("contextEcho", VObj [("campaign", VStr "c1")]);
          ("policy",
           VObj [("maxIncreasePct", VNum 30); ("maxDecreasePct", VNum 30);
                 ("minDailyBudgetEur", VNum 1);
                 ("allowStatuses",
                  VArr [VStr "PAUSED"; VStr "ACTIVE"; VStr "ARCHIVED"])]);
          ("results",
           VArr
             [VObj [("id", VStr "p1"); ("type", VStr "budget_change");
                    ("approved", VBool false);
                    ("reason", VStr "delta_pct fuera de umbral (+30/-30)")];
              VObj [("id", VStr "p2"); ("type", VStr "status_change");
                    ("approved", VBool false);
                    ("reason", VStr "Estado no permitido")];
              VObj [("id", VStr "p3"); ("type", VStr "bid_change");
                    ("approved", VBool false);
                    ("reason", VStr "Tipo no soportado")]]);
          ("timestamp", VStr "2025-01-01T00:00:00.000Z")]).
Proof. reflexivity. Qed.

(** A body with neither [proposals] nor [action] and [payload]. *)
Example simulate_empty :
  BridgeV2.simulate sample_runtime "2025-01-01T00:00:00.000Z" (VObj [])
  = error_json 400 "Falta proposals[] o action+payload".
Proof. reflexivity. Qed.

(** An object with a member [toString] has no text: as an ad set id it
    makes the three budget handlers answer 400 with the message of the
    TypeError, and as [payload.status] of the action ["ad_status"] it
    makes the simulator answer 500. *)
Example textless_values :
  ToString sample_runtime textless_id
    = Throw "Cannot convert object to primitive value"
  /\ ToString sample_runtime (VArr [VNull; VStr "a"; VArr [VBool true]])
     = Normal ",a,true"
  /\ BridgeV2.adset_budget sample_runtime configured_env accepting_remote
       (VObj [("adset_id", textless_id); ("daily_budget_eur", VNum 50)])
     = error_json 400 "Cannot convert object to primitive value"
  /\ RoutesTs.adset_budget sample_runtime configured_env accepting_remote
       (VObj [("adset_id", textless_id); ("daily_budget_eur", VNum 50)])
     = RoutesTs.caught "adset_budget"
         "Cannot convert object to primitive value"
  /\ BridgeV2.simulate sample_runtime "2025-01-01T00:00:00.000Z"
       (VObj [("action", VStr "ad_status");
              ("payload", VObj [("status", textless_id)])])
     = error_json 500 "Error simulando propuestas".
Proof. repeat split. Qed.

(** ** The properties on the sample data *)



(** The [bid_change] proposal, third of the sample batch, is returned
    rejected as of unsupported type. *)
Lemma unsupported_type_rejected_witness :
  nth_error
    (results_of
       (BridgeV2.simulate sample_runtime "2025-01-01T00:00:00.000Z"
          simulate_body)) 2
  = Some (VObj [("id", VStr "p3"); ("type", VStr "bid_change");
                ("approved", VBool false);
                ("reason", VStr "Tipo no soportado")]).
Proof.
  apply (unsupported_type_rejected sample_runtime "2025-01-01T00:00:00.000Z"
           simulate_body [increase_40; to_deleted; bid_change] 2 bid_change
           (VStr "bid_change") eq_refl eq_refl eq_refl eq_refl eq_refl).
  repeat constructor; intros [H|H]; discriminate H.
Defined.

(** C5 as the specification words it fails: the decision returned for
    the [bid_change] proposal is a rejection, but its reason is not the
    text ["unsupported type"]. *)
Lemma unsupported_type_reason_text :
  status (BridgeV2.simulate sample_runtime "2025-01-01T00:00:00.000Z"
            simulate_body) = 200%Z
  /\ ~ (exists decision,
          nth_error
            (results_of
               (BridgeV2.simulate sample_runtime "2025-01-01T00:00:00.000Z"
                  simulate_body)) 2
          = Some decision
          /\ prop decision "approved" = VBool false
          /\ prop decision "reason" = VStr "unsupported type").
Proof.
  split; [reflexivity|].
  intros (decision & Hd & _ & Hr). vm_compute in Hd. injection Hd as <-.
  discriminate Hr.
Qed.

(** A budget change whose two fields are the string ["0"] is returned
    approved. *)
Lemma budget_change_non_numeric_approved_witness :
  nth_error
    (results_of
       (BridgeV2.simulate sample_runtime "2025-01-01T00:00:00.000Z"
          textual_body)) 0
  = Some (VObj [("id", VStr "p4"); ("type", VStr "budget_change");
                ("approved", VBool true); ("reason", VStr "OK")]).
Proof.
  destruct (budget_change_non_numeric_approved sample_runtime
              "2025-01-01T00:00:00.000Z" textual_body [textual_budget] 0
              textual_budget eq_refl eq_refl eq_refl)
    as (o & Hok & _ & _ & _ & Hret & _).
  rewrite (proj2 (Hret ltac:(repeat constructor; intros [H|H]; discriminate H))).
  now rewrite (Hok eq_refl eq_refl).
Defined.

(** C6 as the specification words it fails on a [proposals] array with
    a [null] element: the reply is the 500 one, with no results, no
    [contextEcho] and no policy. *)
Lemma simulate_null_proposal :
  prop (js_or null_proposal_body (VObj [])) "proposals"
    = VArr [increase_40; VNull]
  /\ BridgeV2.simulate sample_runtime "2025-01-01T00:00:00.000Z"
       null_proposal_body
     = {| status := 500;
          body := VObj [("error", VStr "Error simulando propuestas")] |}
  /\ prop (body (BridgeV2.simulate sample_runtime "2025-01-01T00:00:00.000Z"
                   null_proposal_body)) "results" = VUndefined
  /\ prop (body (BridgeV2.simulate sample_runtime "2025-01-01T00:00:00.000Z"
                   null_proposal_body)) "contextEcho" = VUndefined.
Proof.
  repeat split.
Qed.

(** The three sample proposals are decided in order; a [null] among the
    proposals turns the reply into the 500 one. *)
Lemma simulate_maps_proposals_witness :
  (exists outcomes,
      Forall2 (fun p o => BridgeV2.evaluate p = Some o)
        [increase_40; to_deleted; bid_change] outcomes
      /\ List.length outcomes = 3%nat
      /\ BridgeV2.simulate sample_runtime "2025-01-01T00:00:00.000Z"
           simulate_body =
           json (VObj [("mode", VStr "simulation");
                       ("contextEcho", VObj [("campaign", VStr "c1")]);
                       ("policy", BridgeV2.policy_snapshot);
                       ("results", VArr (map outcome_value outcomes));
                       ("timestamp", VStr "2025-01-01T00:00:00.000Z")]))
  /\ BridgeV2.simulate sample_runtime "2025-01-01T00:00:00.000Z"
       null_proposal_body = error_json 500 "Error simulando propuestas".
Proof.
  split.
  - apply (simulate_maps_proposals sample_runtime "2025-01-01T00:00:00.000Z"
             simulate_body [increase_40; to_deleted; bid_change] eq_refl).
    repeat constructor; intros [H|H]; discriminate H.
  - apply (simulate_maps_proposals sample_runtime "2025-01-01T00:00:00.000Z"
             null_proposal_body [increase_40; VNull] eq_refl).
    apply Exists_cons_tl, Exists_cons_hd. now left.
Defined.

(** C2 as the specification words it fails below zero: [-0.125] euros are
    [-12.5] cents exactly, which [Math.round] takes to [-12] and rounding
    half away from zero to [-13]. *)
Lemma toCents_negative_tie :
  BridgeV2.toCents sample_runtime (VNum (-0.125)) = Normal (VNum (-12))
  /\ round_half_away_from_zero (-0.125 * 100) = (-13)%float
  /\ BridgeV2.toCents sample_runtime (VNum (-0.125))
     <> Normal (VNum (round_half_away_from_zero (-0.125 * 100))).
Proof.
  split; [reflexivity|]. split; [reflexivity|].
  intros H.
  assert (E : match BridgeV2.toCents sample_runtime (VNum (-0.125)) with
              | Normal (VNum c) => (c =? -12)%float
              | _ => false
              end = true) by reflexivity.
  rewrite H in E. vm_compute in E. discriminate E.
Qed.

(** 12.5 euros are 1250 cents under either rounding. *)
Lemma toCents_round_half_up_witness :
  BridgeV2.toCents sample_runtime (VNum 12.5)
    = Normal (VNum (round_half_away_from_zero (12.5 * 100))).
Proof.
  destruct (toCents_round_half_up sample_runtime 12.5 eq_refl)
    as (_ & _ & H).
  exact (proj1 (H eq_refl)).
Defined.

(** C3 as the specification words it fails on the second server script:
    a body without [since] and [until] is forwarded, and the reply of the
    remote API is relayed with status 200. *)
Lemma insights_without_dates_forwarded :
  prop insights_without_dates "since" = VUndefined
  /\ prop insights_without_dates "until" = VUndefined
  /\ BridgeV2.insights sample_runtime configured_env accepting_remote
       insights_without_dates
     = {| status := 200; body := VObj [("data", VArr [])] |}.
Proof.
  repeat split.
Qed.

(** [server/routes.ts] answers 400 to the body without dates. *)
Lemma routes_insights_requires_dates_witness :
  RoutesTs.insights sample_runtime configured_env accepting_remote
    insights_without_dates
  = error_json 400 "since and until dates are required".
Proof.
  apply (routes_insights_requires_dates sample_runtime configured_env
           accepting_remote insights_without_dates).
  left. reflexivity.
Defined.

(** A daily budget of 0: 400 from [server/routes.ts], forwarded by the
    second server script. *)
Lemma adset_budget_zero_witness :
  RoutesTs.adset_budget sample_runtime configured_env accepting_remote
    zero_budget
  = error_json 400 "adset_id and daily_budget_eur are required"
  /\ BridgeV2.adset_budget sample_runtime configured_env accepting_remote
       zero_budget
     = json (VObj [("updated", VBool true);
                   ("meta", VObj [("data", VArr [])])]).
Proof.
  destruct (adset_budget_zero sample_runtime configured_env accepting_remote
              zero_budget eq_refl) as [Hr Hb].
  split; [exact Hr|].
  rewrite (proj2 (Hb eq_refl eq_refl eq_refl)). reflexivity.
Defined.

(** C7 as the specification words it fails on OPTIONS requests: the
    second guard passes one with a wrong key although a secret is
    configured. *)
Lemma guard_admits_options :
  BridgeV2.BRIDGE_API_KEY configured_env = Some "s3cret"
  /\ path options_request <> "/api/health"
  /\ path options_request <> "/healthz"
  /\ x_api_key options_request <> Some "s3cret"
  /\ BridgeV2.guard configured_env options_request = Next.
Proof.
  repeat split; discriminate.
Qed.

(** A POST with a wrong key is answered 401 by both guards. *)
Lemma guard_unauthorized_witness :
  BridgeV1.guard configured_env post_wrong_key
    = Respond (error_json 401 "Unauthorized")
  /\ BridgeV2.guard configured_env post_wrong_key
    = Respond (error_json 401 "Unauthorized").
Proof.
  destruct (guard_unauthorized configured_env post_wrong_key "s3cret" eq_refl)
    as (H1 & H2 & _).
  split; [apply H1 | apply H2]; discriminate.
Defined.

(** A blank key opens the second guard to a POST with a wrong key. *)
Example blank_key_opens :
  BridgeV1.guard blank_key_env post_wrong_key
    = Respond (error_json 401 "Unauthorized")
  /\ BridgeV2.guard blank_key_env post_wrong_key = Next.
Proof. split; reflexivity. Qed.

(** Without [BRIDGE_API_KEY] a POST without key passes both guards. *)
Lemma guard_open_without_key_witness :
  BridgeV1.guard keyless_env post_no_key = Next
  /\ BridgeV2.guard keyless_env post_no_key = Next.
Proof.
  apply (guard_open_without_key keyless_env post_no_key).
  left. reflexivity.
Defined.

(** * Further properties of the code *)

(** ** The callback of the simulator *)

Lemma get_defined (p : value) (k : string) :
  ~ nullish p -> get p k = Some (prop p k).
Proof.
  intros Hp. destruct (get p k) as [v|] eqn:E.
  - rewrite <- E. exact (get_prop p k v E k).
  - apply get_nullish in E. contradiction.
Qed.

Lemma budget_change_keeps (o : outcome) (dp nd : value) :
  out_id (BridgeV2.budget_change o dp nd) = out_id o
  /\ out_type (BridgeV2.budget_change o dp nd) = out_type o.
Proof.
  unfold BridgeV2.budget_change.
  destruct (match nd with VNum n => _ | _ => false end); [now split|].
  destruct (match dp with VNum d => _ | _ => false end); now split.
Qed.

Lemma status_change_keeps (o : outcome) (v : value) :
  out_id (BridgeV2.status_change o v) = out_id o
  /\ out_type (BridgeV2.status_change o v) = out_type o.
Proof.
  unfold BridgeV2.status_change. destruct (negb _); now split.
Qed.

(** X1. Every proposal other than [null] gets a decision, and the
    decision carries the proposal's own [id] and [type], whatever they
    are (absent ones included). *)
Theorem evaluate_echoes (p : value) :
  ~ nullish p ->
  exists o,
    BridgeV2.evaluate p = Some o
    /\ out_id o = prop p "id" /\ out_type o = prop p "type".
Proof.
  intros Hp. rewrite (evaluate_typed p _ (get_defined p "type" Hp)).
  cbv zeta. eexists. split; [reflexivity|].
  destruct (is_string (prop p "type") "budget_change").
  - apply budget_change_keeps.
  - destruct (is_string (prop p "type") "status_change").
    + apply status_change_keeps.
    + now split.
Qed.

(** A non-null proposal with a numeric [id] and no [type]. *)
Lemma evaluate_echoes_witness :
  exists o,
    BridgeV2.evaluate (VObj [("id", VNum 7)]) = Some o
    /\ out_id o = VNum 7 /\ out_type o = VUndefined.
Proof.
  apply (evaluate_echoes (VObj [("id", VNum 7)])).
  intros [H|H]; discriminate H.
Defined.

Lemma budget_change_verdict (o : outcome) (dp nd : value) :
  approved o = false ->
  let o' := BridgeV2.budget_change o dp nd in
  (approved o' = true /\ reason o' = "OK")
  \/ (approved o' = false
      /\ (reason o' = "Presupuesto < mínimo (1 EUR)"
          \/ reason o' = "delta_pct fuera de umbral (+30/-30)")).
Proof.
  intros Ho. unfold BridgeV2.budget_change.
  destruct (match nd with VNum n => _ | _ => false end); simpl.
  { right. auto. }
  destruct (match dp with VNum d => _ | _ => false end); simpl; auto.
Qed.

(** X2. In a decision of the proposals mode, [approved] and [reason] go
    together: an approval has the reason ["OK"], a rejection has one of the
    four rejection texts. The empty reason the callback starts from is
    never returned. *)
Theorem evaluate_reason (p : value) (o : outcome) :
  BridgeV2.evaluate p = Some o ->
  (approved o = true /\ reason o = "OK")
  \/ (approved o = false /\ In (reason o) rejection_texts).
Proof.
  intros H.
  assert (Hp : ~ nullish p).
  { intros Hn. apply evaluate_throws in Hn. congruence. }
  rewrite (evaluate_typed p _ (get_defined p "type" Hp)) in H.
  cbv zeta in H. injection H as <-.
  destruct (is_string (prop p "type") "budget_change").
  - destruct (budget_change_verdict
                {| out_id := prop p "id"; out_type := prop p "type";
                   approved := false; reason := EmptyString |}
                (prop p "delta_pct") (prop p "new_daily_budget_eur") eq_refl)
      as [H|[Ha [Hr|Hr]]]; [now left| |];
      right; split; try exact Ha; rewrite Hr; simpl; auto.
  - destruct (is_string (prop p "type") "status_change").
    + unfold BridgeV2.status_change. destruct (negb _); simpl; auto 7.
    + right. simpl. auto 7.
Qed.

(** The decision on the proposal of unknown type. *)
Lemma evaluate_reason_witness :
  let o := {| out_id := VStr "p3"; out_type := VStr "bid_change";
              approved := false; reason := "Tipo no soportado" |} in
  (approved o = true /\ reason o = "OK")
  \/ (approved o = false /\ In (reason o) rejection_texts).
Proof.
  exact (evaluate_reason bid_change
           {| out_id := VStr "p3"; out_type := VStr "bid_change";
              approved := false; reason := "Tipo no soportado" |} eq_refl).
Defined.



(** X4. The callback reads five fields of a proposal and nothing else:
    two proposals with the same [id], [type], [delta_pct],
    [new_daily_budget_eur] and [new_status] get the same decision. *)
Theorem evaluate_reads_five_fields (p q : value) :
  ~ nullish p -> ~ nullish q ->
  (forall k, In k proposal_fields -> prop p k = prop q k) ->
  BridgeV2.evaluate p = BridgeV2.evaluate q.
Proof.
  intros Hp Hq H.
  rewrite (evaluate_typed p _ (get_defined p "type" Hp)).
  rewrite (evaluate_typed q _ (get_defined q "type" Hq)).
  rewrite <- !H by (simpl; auto 7). reflexivity.
Qed.

(** Extra members ([note], [approved]) change nothing. *)
Lemma evaluate_reads_five_fields_witness :
  BridgeV2.evaluate increase_40_annotated = BridgeV2.evaluate increase_40.
Proof.
  apply (evaluate_reads_five_fields increase_40_annotated increase_40).
  - intros [H|H]; discriminate H.
  - intros [H|H]; discriminate H.
  - intros k Hk. simpl in Hk.
    destruct Hk as [<-|[<-|[<-|[<-|[<-|[]]]]]]; reflexivity.
Defined.

(** ** The handler of the simulator *)

Lemma simulate_not_array (rt : Runtime) (now : string) (req_body : value) :
  let b := js_or req_body (VObj []) in
  is_array (prop b "proposals") = false ->
  BridgeV2.simulate rt now req_body =
    if truthy (prop b "action") && truthy (prop b "payload") then
      match BridgeV2.simulate_action rt (prop b "action") (prop b "payload") with
      | Normal decision =>
          BridgeV2.simulation (or_default (prop b "context") (VObj []))
            [decision] now
      | Throw _ => error_json 500 "Error simulando propuestas"
      end
    else error_json 400 "Falta proposals[] o action+payload".
Proof.
  intros b H. unfold BridgeV2.simulate. fold b.
  destruct (prop b "proposals"); try discriminate H; reflexivity.
Qed.

(** The action mode throws exactly when the action is ["ad_status"] and
    [payload.status] has no text. *)
Lemma simulate_action_throws (rt : Runtime) (action payload : value)
    (m : string) :
  BridgeV2.simulate_action rt action payload = Throw m
  <-> is_string action "ad_status" = true
      /\ ToString rt (prop payload "status") = Throw m.
Proof.
  unfold BridgeV2.simulate_action.
  destruct (is_string action "ad_status").
  - destruct (ToString rt (prop payload "status")) as [t|m'].
    + split; [discriminate | intros [_ H]; discriminate H].
    + split; [intros [= ->]; now split | intros [_ [= ->]]; reflexivity].
  - split; [discriminate | intros [H _]; discriminate H].
Qed.

(** An allowed status is a text. *)
Lemma allowed_status_text (rt : Runtime) (v : value) :
  has (allowStatuses DEFAULT_POLICY) v = true ->
  exists t, ToString rt v = Normal t.
Proof.
  destruct v; simpl; try discriminate. intros _. eauto.
Qed.

(** X5. The simulator answers 200, 400 or 500 and nothing else: 400
    exactly when [proposals] is not an array and [action] or [payload] is
    missing (or falsy); 500 exactly when [proposals] is an array with a
    [null] element, or, in the mode [action + payload], when the action is
    ["ad_status"] and [payload.status] is an object that has no text, so
    that the reason cannot be written. An empty [proposals] array is
    answered 200 with no results, also when [action] and [payload] are
    present: the proposals mode comes first. *)
Theorem simulate_status (rt : Runtime) (now : string) (req_body : value) :
  let b := js_or req_body (VObj []) in
  let r := BridgeV2.simulate rt now req_body in
  (status r = 200 \/ status r = 400 \/ status r = 500)%Z
  /\ (status r = 400%Z <->
      is_array (prop b "proposals") = false
      /\ truthy (prop b "action") && truthy (prop b "payload") = false)
  /\ (status r = 500%Z <->
      (exists ps, prop b "proposals" = VArr ps /\ Exists nullish ps)
      \/ (is_array (prop b "proposals") = false
          /\ truthy (prop b "action") && truthy (prop b "payload") = true
          /\ is_string (prop b "action") "ad_status" = true
          /\ exists m,
               ToString rt (prop (prop b "payload") "status") = Throw m))
  /\ (prop b "proposals" = VArr [] ->
      status r = 200%Z /\ results_of r = []).
Proof.
  intros b r. subst r.
  destruct (is_array (prop b "proposals")) eqn:Harr.
  - destruct (prop b "proposals") as [| | | | |ps|] eqn:Hps;
      try discriminate Harr.
    unfold BridgeV2.simulate. fold b. rewrite Hps.
    destruct (map_throwing BridgeV2.evaluate ps) as [outcomes|] eqn:E; simpl.
    + split; [auto|].
      split; [split; [discriminate | intros [H _]; discriminate H]|].
      split.
      * split; [discriminate|].
        intros [(ps' & [= <-] & Hex) | (H & _)]; [|discriminate H].
        assert (Hnone : map_throwing BridgeV2.evaluate ps = None).
        { apply map_throwing_None. apply Exists_exists in Hex.
          destruct Hex as (p & Hin & Hp). apply Exists_exists.
          exists p. split; [exact Hin | now apply evaluate_throws]. }
        congruence.
      * intros [= ->]. simpl in E. injection E as <-. now split.
    + split; [auto|].
      split; [split; [discriminate | intros [H _]; discriminate H]|].
      split.
      * split; [|reflexivity]. intros _. left. exists ps.
        split; [reflexivity|].
        assert (Hex : ~ Forall (fun p => ~ nullish p) ps).
        { intros Hall. destruct (map_throwing_evaluate ps Hall) as [os Hos].
          congruence. }
        apply Exists_exists.
        apply neg_Forall_Exists_neg in Hex.
        -- apply Exists_exists in Hex. destruct Hex as (p & Hin & Hp).
           exists p. split; [exact Hin|].
           destruct p; try (exfalso; apply Hp; intros [H|H]; discriminate H);
             [now right | now left].
        -- intros p. destruct p;
             try (left; intros [H|H]; discriminate H);
             right; intros H; apply H; [now right | now left].
      * intros [= ->]. discriminate E.
  - rewrite (simulate_not_array rt now req_body Harr). fold b.
    assert (Hnot : forall ps, prop b "proposals" <> VArr ps).
    { intros ps H. rewrite H in Harr. discriminate Harr. }
    destruct (truthy (prop b "action") && truthy (prop b "payload")).
    + destruct (BridgeV2.simulate_action rt (prop b "action")
                  (prop b "payload")) as [decision|m] eqn:E; simpl.
      * split; [auto|].
        split; [split; [discriminate | intros [_ H]; discriminate H]|].
        split; [|intros H; now apply Hnot in H].
        split; [discriminate|].
        intros [(ps & H & _) | (_ & _ & Hact & m & Hm)];
          [now apply Hnot in H|].
        assert (Hthrow : BridgeV2.simulate_action rt (prop b "action")
                           (prop b "payload") = Throw m)
          by (apply simulate_action_throws; now split).
        congruence.
      * split; [auto|].
        split; [split; [discriminate | intros [_ H]; discriminate H]|].
        split; [|intros H; now apply Hnot in H].
        split; [|reflexivity]. intros _. right.
        apply simulate_action_throws in E. destruct E as [Hact Hm].
        repeat split; eauto.
    + simpl. split; [auto|].
      split; [split; [now split | reflexivity]|].
      split; [|intros H; now apply Hnot in H].
      split; [discriminate|].
      intros [(ps & H & _) | (_ & H & _)];
        [now apply Hnot in H | discriminate H].
Qed.

(** X6. In the mode [action + payload] (no [proposals] array, both
    members truthy) the reply is a simulation with exactly one decision,
    approved exactly when [action] is ["ad_status"] and [payload.status]
    is an allowed status; any other action is rejected as unsupported,
    with the action as its [type]. The one exception: when the action is
    ["ad_status"] and [payload.status] has no text (which no allowed
    status is), writing the reason throws and the reply is the 500 one. *)
Theorem simulate_action_mode (rt : Runtime) (now : string)
    (req_body : value) :
  let b := js_or req_body (VObj []) in
  is_array (prop b "proposals") = false ->
  truthy (prop b "action") = true ->
  truthy (prop b "payload") = true ->
  (is_string (prop b "action") "ad_status" = false
   \/ (exists t, ToString rt (prop (prop b "payload") "status") = Normal t) ->
   exists decision,
     BridgeV2.simulate rt now req_body =
       BridgeV2.simulation (or_default (prop b "context") (VObj []))
         [decision] now
     /\ prop decision "approved" =
          VBool (is_string (prop b "action") "ad_status"
                 && has (allowStatuses DEFAULT_POLICY)
                      (prop (prop b "payload") "status"))
     /\ (is_string (prop b "action") "ad_status" = false ->
         prop decision "type" = prop b "action"
         /\ prop decision "reason" = VStr "Acción no soportada"))
  /\ (is_string (prop b "action") "ad_status" = true ->
      (exists m, ToString rt (prop (prop b "payload") "status") = Throw m) ->
      BridgeV2.simulate rt now req_body =
        error_json 500 "Error simulando propuestas")
  /\ (has (allowStatuses DEFAULT_POLICY) (prop (prop b "payload") "status")
        = true ->
      exists t, ToString rt (prop (prop b "payload") "status") = Normal t).
Proof.
  intros b Harr Ha Hp.
  rewrite (simulate_not_array rt now req_body Harr). fold b.
  rewrite Ha, Hp. simpl andb. cbv iota.
  split; [|split].
  - intros Hok. unfold BridgeV2.simulate_action.
    destruct (is_string (prop b "action") "ad_status") eqn:Hact.
    + destruct Hok as [Hno | (t & Ht)]; [discriminate Hno|].
      rewrite Ht. eexists. split; [reflexivity|].
      split; [reflexivity | discriminate].
    + eexists. split; [reflexivity|]. split; [reflexivity|].
      intros _. now split.
  - intros Hact (m & Hm).
    assert (Hthrow : BridgeV2.simulate_action rt (prop b "action")
                       (prop b "payload") = Throw m)
      by (apply simulate_action_throws; now split).
    now rewrite Hthrow.
  - apply allowed_status_text.
Qed.

(** Pausing an ad is approved. *)
Lemma simulate_action_mode_witness :
  exists decision,
    BridgeV2.simulate sample_runtime "2025-01-01T00:00:00.000Z" pause_action
      = BridgeV2.simulation (VObj []) [decision] "2025-01-01T00:00:00.000Z"
    /\ prop decision "approved" = VBool true.
Proof.
  destruct (simulate_action_mode sample_runtime "2025-01-01T00:00:00.000Z"
              pause_action eq_refl eq_refl eq_refl) as (H & _).
  destruct H as (d & Hd & Ha & _).
  - right. exists "PAUSED". reflexivity.
  - exists d. split; [exact Hd | exact Ha].
Defined.

(** X7. The two modes of the simulator allow the same statuses: a
    [status_change] proposal is approved exactly when the action
    ["ad_status"] with the same status as [payload.status] is; where the
    action mode throws instead of deciding, the proposal is rejected. *)
Theorem modes_agree_on_status (rt : Runtime) (p payload : value) :
  get p "type" = Some (VStr "status_change") ->
  prop payload "status" = prop p "new_status" ->
  exists o,
    BridgeV2.evaluate p = Some o
    /\ match BridgeV2.simulate_action rt (VStr "ad_status") payload with
       | Normal decision => prop decision "approved" = VBool (approved o)
       | Throw _ => approved o = false
       end.
Proof.
  intros Ht Hs. rewrite (evaluate_typed p _ Ht). cbv zeta.
  change (is_string (VStr "status_change") "budget_change") with false.
  change (is_string (VStr "status_change") "status_change") with true.
  cbv iota. eexists. split; [reflexivity|].
  unfold BridgeV2.simulate_action, BridgeV2.status_change.
  change (is_string (VStr "ad_status") "ad_status") with true. cbv iota.
  rewrite Hs.
  destruct (has (allowStatuses DEFAULT_POLICY) (prop p "new_status")) eqn:Hh.
  - destruct (allowed_status_text rt _ Hh) as [t ->]. reflexivity.
  - destruct (ToString rt (prop p "new_status")); reflexivity.
Qed.

(** DELETED is rejected in both modes. *)
Lemma modes_agree_on_status_witness :
  exists o,
    BridgeV2.evaluate to_deleted = Some o
    /\ match
         BridgeV2.simulate_action sample_runtime (VStr "ad_status")
           (VObj [("status", VStr "DELETED")])
       with
       | Normal decision => prop decision "approved" = VBool (approved o)
       | Throw _ => approved o = false
       end.
Proof.
  exact (modes_agree_on_status sample_runtime to_deleted
           (VObj [("status", VStr "DELETED")]) eq_refl eq_refl).
Defined.

Lemma simulate_status_witness :
  status (BridgeV2.simulate sample_runtime "2025-01-01T00:00:00.000Z"
            empty_proposals_with_action) = 200%Z
  /\ results_of (BridgeV2.simulate sample_runtime "2025-01-01T00:00:00.000Z"
                   empty_proposals_with_action) = [].
Proof.
  apply (simulate_status sample_runtime "2025-01-01T00:00:00.000Z"
           empty_proposals_with_action).
  reflexivity.
Defined.

(** ** Numbers that are not NaN *)

Lemma is_nan_Prim2SF (x : float) :
  PrimFloat.is_nan x = true -> Prim2SF x = S754_nan.
Proof. intros H. unfold Prim2SF. now rewrite H. Qed.

Lemma not_nan_is_nan (x : float) :
  Prim2SF x <> S754_nan -> PrimFloat.is_nan x = false.
Proof.
  intros H. destruct (PrimFloat.is_nan x) eqn:E; [|reflexivity].
  now apply is_nan_Prim2SF in E.
Qed.

(** There is one NaN. *)
Lemma is_nan_eq (x : float) : PrimFloat.is_nan x = true -> x = PrimFloat.nan.
Proof.
  intros H. rewrite <- (SF2Prim_Prim2SF x). now rewrite (is_nan_Prim2SF x H).
Qed.

Lemma shr_1_nonneg (mrs : shr_record) :
  (0 <= shr_m mrs)%Z -> (0 <= shr_m (shr_1 mrs))%Z.
Proof.
  destruct mrs as [m r s0]. simpl.
  destruct m as [|[q|q|]|[q|q|]]; simpl; lia.
Qed.

Lemma iter_shr_1_nonneg (p : positive) (mrs : shr_record) :
  (0 <= shr_m mrs)%Z -> (0 <= shr_m (iter_pos shr_1 p mrs))%Z.
Proof.
  revert mrs. induction p as [p IH|p IH|]; intros mrs H; simpl.
  - apply IH, IH, shr_1_nonneg, H.
  - apply IH, IH, H.
  - apply shr_1_nonneg, H.
Qed.

Lemma shr_fexp_nonneg (m e : Z) (l : location) :
  (0 <= m)%Z -> (0 <= shr_m (fst (shr_fexp prec emax m e l)))%Z.
Proof.
  intros H. unfold shr_fexp, shr.
  assert (H0 : (0 <= shr_m (shr_record_of_loc m l))%Z).
  { destruct l as [|[| |]]; exact H. }
  destruct (fexp prec emax (Zdigits2 m + e) - e)%Z; simpl; auto.
  now apply iter_shr_1_nonneg.
Qed.

Lemma round_nearest_even_nonneg (m : Z) (l : location) :
  (0 <= m)%Z -> (0 <= round_nearest_even m l)%Z.
Proof.
  intros H. destruct l as [|[| |]]; simpl; try lia.
  destruct (Z.even m); lia.
Qed.

(** Rounding a non-negative mantissa to binary64 never gives NaN. *)
Lemma binary_round_aux_not_nan (s : bool) (m e : Z) (l : location) :
  (0 <= m)%Z -> binary_round_aux prec emax s m e l <> S754_nan.
Proof.
  intros H. unfold binary_round_aux.
  pose proof (shr_fexp_nonneg m e l H) as H1.
  destruct (shr_fexp prec emax m e l) as [mrs1 e1]. simpl in H1.
  pose proof (shr_fexp_nonneg _ e1 loc_Exact
                (round_nearest_even_nonneg (shr_m mrs1)
                   (loc_of_shr_record mrs1) H1)) as H2.
  destruct (shr_fexp prec emax _ e1 loc_Exact) as [mrs2 e2]. simpl in H2.
  destruct (shr_m mrs2); try discriminate; [|lia].
  destruct (e2 <=? emax - prec)%Z; discriminate.
Qed.

Lemma binary_round_not_nan (s : bool) (m : positive) (e : Z) :
  binary_round prec emax s m e <> S754_nan.
Proof.
  unfold binary_round. destruct (shl_align m e _) as [mz ez].
  apply binary_round_aux_not_nan. lia.
Qed.

Lemma of_uint63_not_nan (n : int) :
  PrimFloat.is_nan (PrimFloat.of_uint63 n) = false.
Proof.
  apply not_nan_is_nan. rewrite of_uint63_spec. unfold binary_normalize.
  destruct (Uint63.to_Z n); try discriminate; apply binary_round_not_nan.
Qed.

Lemma opp_not_nan (x : float) :
  PrimFloat.is_nan x = false -> PrimFloat.is_nan (- x) = false.
Proof.
  intros H. apply not_nan_is_nan. rewrite opp_spec.
  pose proof (Prim2SF_is_nan x H) as Hx.
  destruct (Prim2SF x); simpl; congruence.
Qed.

Lemma Math_round_not_nan (x : float) :
  PrimFloat.is_nan x = false -> PrimFloat.is_nan (Math_round x) = false.
Proof.
  intros H. unfold Math_round.
  destruct (Prim2SF x) as [s|s| |s m e]; try exact H.
  destruct (0 <=? e)%Z; [exact H|].
  unfold signed_integral. destruct (_ =? 0)%Z.
  - now destruct s.
  - unfold float_of_Z. destruct (_ <? 0)%Z.
    + apply opp_not_nan, of_uint63_not_nan.
    + apply of_uint63_not_nan.
Qed.

Lemma mul_100_not_nan (x : float) :
  PrimFloat.is_nan x = false -> PrimFloat.is_nan (x * 100) = false.
Proof.
  intros H. apply not_nan_is_nan. rewrite mul_spec.
  pose proof (Prim2SF_is_nan x H) as Hx.
  change (Prim2SF 100) with (S754_finite false 7036874417766400 (-46)).
  unfold SF64mul, SFmul.
  destruct (Prim2SF x) as [s|s| |s m e]; try discriminate; try congruence.
  apply binary_round_aux_not_nan. lia.
Qed.

Lemma truthy_defined (v : value) : truthy v = true -> is_undefined v = false.
Proof. destruct v; simpl; intros H; try reflexivity; discriminate H. Qed.

(** ** The update endpoints *)

(** X8. In the second server script the check of the environment comes
    first: when the account or the token is missing (or blank), the four
    handlers that talk to the remote API answer the same 500 reply
    whatever the body, and the remote API is not called. *)
Theorem missing_env_answers_500 (rt : Runtime) (e : env)
    (b1 b2 b3 : value) :
  BridgeV2.hasEssentialEnv e = false ->
  exists r,
    status r = 500%Z
    /\ prop (body r) "error" = VStr "Missing required env vars"
    /\ answers_alone (fun remote => BridgeV2.get_insights e remote) r
    /\ answers_alone (fun remote => BridgeV2.insights rt e remote b1) r
    /\ answers_alone (fun remote => BridgeV2.adset_budget rt e remote b2) r
    /\ answers_alone (fun remote => BridgeV2.ad_status rt e remote b3) r.
Proof.
  intros H.
  destruct (BridgeV2.ensureEnv e) as [r|] eqn:E.
  - exists r. unfold BridgeV2.ensureEnv in E. rewrite H in E.
    simpl in E. injection E as <-.
    repeat split; intros remote;
      unfold BridgeV2.get_insights, BridgeV2.insights,
        BridgeV2.adset_budget, BridgeV2.ad_status, BridgeV2.ensureEnv;
      now rewrite H.
  - unfold BridgeV2.ensureEnv in E. rewrite H in E. discriminate E.
Qed.

(** Without a token even a well-formed budget update is answered 500. *)
Lemma missing_env_answers_500_witness :
  exists r,
    status r = 500%Z
    /\ answers_alone
         (fun remote =>
            BridgeV2.adset_budget sample_runtime tokenless_env remote
              fifty_euros) r.
Proof.
  destruct (missing_env_answers_500 sample_runtime tokenless_env
              insights_without_dates fifty_euros archive_ad eq_refl)
    as (r & Hs & _ & _ & _ & Hb & _).
  exists r. split; [exact Hs | exact Hb].
Defined.

(** X9. The budget endpoint of the second server script never forwards
    a budget that is not a number: either it answers 400 or 500 by itself,
    or it makes one POST whose only parameter is [daily_budget], a number
    other than NaN. *)
Theorem adset_budget_never_sends_nan (rt : Runtime) (e : env)
    (req_body : value) :
  (exists r,
      answers_alone
        (fun remote => BridgeV2.adset_budget rt e remote req_body) r
      /\ (status r = 400 \/ status r = 500)%Z)
  \/ (exists cents id_text,
        PrimFloat.is_nan cents = false
        /\ ToString rt (prop (js_or req_body (VObj [])) "adset_id")
           = Normal id_text
        /\ calls (fun remote => BridgeV2.adset_budget rt e remote req_body)
             {| verb := "POST";
                url := BridgeV2.BASE e id_text;
                params := [("daily_budget", VNum cents)];
                authorization := BridgeV2.authHeader e |}
             (fun reply =>
                BridgeV2.relay reply
                  (fun data =>
                     VObj [("updated", VBool true); ("meta", data)]))).
Proof.
  unfold answers_alone, calls, BridgeV2.adset_budget, BridgeV2.ensureEnv.
  destruct (BridgeV2.hasEssentialEnv e); simpl negb; cbv iota.
  2:{ left. eexists. split; [intros remote; reflexivity | simpl; auto]. }
  cbv zeta.
  destruct (negb (truthy (prop (js_or req_body (VObj [])) "adset_id"))
            || is_undefined (prop (js_or req_body (VObj [])) "daily_budget_eur")).
  { left. eexists. split; [intros remote; reflexivity | simpl; auto]. }
  unfold BridgeV2.toCents.
  destruct (ToNumber rt (prop (js_or req_body (VObj [])) "daily_budget_eur"))
    as [n|m].
  2:{ left. exists (error_json 400 m).
      split; [intros remote; reflexivity | simpl; auto]. }
  destruct (PrimFloat.is_nan n) eqn:En.
  { left. exists (error_json 400 "daily_budget_eur inválido").
    split; [intros remote; reflexivity | simpl; auto]. }
  simpl is_undefined. cbv iota.
  destruct (ToString rt (prop (js_or req_body (VObj [])) "adset_id"))
    as [id_text|m].
  2:{ left. exists (error_json 400 m).
      split; [intros remote; reflexivity | simpl; auto]. }
  right. exists (Math_round (n * 100)), id_text.
  split; [now apply Math_round_not_nan, mul_100_not_nan|].
  split; [reflexivity | intros remote; reflexivity].
Qed.

(** X10. A truthy [daily_budget_eur] that [Number] turns into NaN, such
    as a text that is no numeral, for an ad set whose id has a text:
    [server/routes.ts] and the first server script forward it as
    [daily_budget = NaN], the second server script answers 400 and
    forwards nothing. *)
Theorem non_numeric_budget (rt : Runtime) (e : env) (req_body : value)
    (id_text : string) (n : float) :
  let b := js_or req_body (VObj []) in
  truthy (prop b "adset_id") = true ->
  truthy (prop b "daily_budget_eur") = true ->
  ToString rt (prop b "adset_id") = Normal id_text ->
  ToNumber rt (prop b "daily_budget_eur") = Normal n ->
  PrimFloat.is_nan n = true ->
  (str_truthy (RoutesTs.META_TOKEN e) = true ->
   calls (fun remote => RoutesTs.adset_budget rt e remote req_body)
     {| verb := "POST";
        url := RoutesTs.BASE e id_text;
        params := [("daily_budget", VNum PrimFloat.nan)];
        authorization := RoutesTs.bearer e |}
     (fun reply =>
        RoutesTs.relay "adset_budget" reply
          (fun data =>
             VObj [("updated", VBool true); ("meta", data);
                   ("converted_budget_cents", VNum PrimFloat.nan)])))
  /\ calls (fun remote => BridgeV1.adset_budget rt e remote req_body)
       {| verb := "POST";
          url := BridgeV1.BASE e id_text;
          params := [("daily_budget", VNum PrimFloat.nan)];
          authorization := BridgeV1.bearer e |}
       (fun reply =>
          BridgeV1.relay reply
            (fun data => VObj [("updated", VBool true); ("meta", data)]))
  /\ (BridgeV2.hasEssentialEnv e = true ->
      answers_alone
        (fun remote => BridgeV2.adset_budget rt e remote req_body)
        (error_json 400 "daily_budget_eur inválido")).
Proof.
  intros b Hid Hb Ht Hn Hnan.
  assert (Hr : Math_round (n * 100) = PrimFloat.nan).
  { rewrite (is_nan_eq _ Hnan). reflexivity. }
  split; [|split].
  - intros Htok remote. unfold RoutesTs.adset_budget. fold b.
    rewrite Hid, Hb, Htok. simpl negb. cbv iota zeta.
    unfold RoutesTs.converted_budget_cents. now rewrite Ht, Hn, Hr.
  - intros remote. unfold BridgeV1.adset_budget. fold b.
    rewrite Hid, Hb. simpl negb. cbv iota zeta. now rewrite Ht, Hn, Hr.
  - intros Henv remote. unfold BridgeV2.adset_budget, BridgeV2.ensureEnv.
    rewrite Henv. simpl negb. cbv iota. fold b. cbv zeta.
    rewrite Hid, (truthy_defined _ Hb). simpl negb. cbv iota.
    unfold BridgeV2.toCents. now rewrite Hn, Hnan.
Qed.

(** The amount ["abc"]. *)
Lemma non_numeric_budget_witness :
  calls
    (fun remote =>
       RoutesTs.adset_budget sample_runtime configured_env remote
         textual_amount)
    {| verb := "POST";
       url := "https://graph.facebook.com/v23.0/120";
       params := [("daily_budget", VNum PrimFloat.nan)];
       authorization := "Bearer token" |}
    (fun reply =>
       RoutesTs.relay "adset_budget" reply
         (fun data =>
            VObj [("updated", VBool true); ("meta", data);
                  ("converted_budget_cents", VNum PrimFloat.nan)]))
  /\ answers_alone
       (fun remote =>
          BridgeV2.adset_budget sample_runtime configured_env remote
            textual_amount)
       (error_json 400 "daily_budget_eur inválido").
Proof.
  destruct (non_numeric_budget sample_runtime configured_env textual_amount
              "120" PrimFloat.nan eq_refl eq_refl eq_refl eq_refl eq_refl)
    as (H1 & _ & H2).
  split; [exact (H1 eq_refl) | exact (H2 eq_refl)].
Defined.

Lemma includes_truthy (arr : list string) (v : value) :
  ~ In EmptyString arr -> includes arr v = true -> truthy v = true.
Proof.
  intros Harr. destruct v as [| | | |s| |]; simpl; try discriminate.
  intros H. apply existsb_exists in H. destruct H as (x & Hin & Hx).
  apply String.eqb_eq in Hx. subst x.
  destruct (String.eqb_spec s EmptyString) as [->|]; [contradiction|reflexivity].
Qed.

(** X11. The status endpoint of [server/routes.ts] forwards a status
    only when it is ACTIVE, PAUSED or ARCHIVED: any other value is
    answered 400 without a call, whatever the environment; an allowed one,
    with a token and an ad id that has a text, is sent as the only
    parameter and comes back as [new_status]; when the ad id has no text
    the TypeError is answered 400, with its message, without a call. *)
Theorem routes_ad_status_validates (rt : Runtime) (e : env)
    (req_body : value) :
  let b := js_or req_body (VObj []) in
  (includes ["ACTIVE"; "PAUSED"; "ARCHIVED"] (prop b "status") = false ->
   exists r,
     answers_alone (fun remote => RoutesTs.ad_status rt e remote req_body) r
     /\ status r = 400%Z)
  /\ (includes ["ACTIVE"; "PAUSED"; "ARCHIVED"] (prop b "status") = true ->
      truthy (prop b "ad_id") = true ->
      str_truthy (RoutesTs.META_TOKEN e) = true ->
      match ToString rt (prop b "ad_id") with
      | Normal id_text =>
          calls (fun remote => RoutesTs.ad_status rt e remote req_body)
            {| verb := "POST";
               url := RoutesTs.BASE e id_text;
               params := [("status", prop b "status")];
               authorization := RoutesTs.bearer e |}
            (fun reply =>
               RoutesTs.relay "ad_status" reply
                 (fun data =>
                    VObj [("updated", VBool true); ("meta", data);
                          ("new_status", prop b "status")]))
      | Throw m =>
          answers_alone
            (fun remote => RoutesTs.ad_status rt e remote req_body)
            {| status := 400;
               body := VObj [("error", VStr m);
                             ("endpoint", VStr "ad_status")] |}
      end).
Proof.
  intros b. split.
  - intros Hno. unfold answers_alone, RoutesTs.ad_status. fold b.
    rewrite Hno. simpl negb. cbv iota.
    destruct (negb (truthy (prop b "ad_id")) || negb (truthy (prop b "status"))).
    + exists (error_json 400 "ad_id and status are required"). now split.
    + exists (error_json 400 "status must be ACTIVE, PAUSED, or ARCHIVED").
      now split.
  - intros Hyes Hid Ht.
    assert (Hh : forall remote,
               RoutesTs.ad_status rt e remote req_body =
               match ToString rt (prop b "ad_id") with
               | Throw m => RoutesTs.caught "ad_status" m
               | Normal id_text =>
                   RoutesTs.relay "ad_status"
                     (remote {| verb := "POST";
                                url := RoutesTs.BASE e id_text;
                                params := [("status", prop b "status")];
                                authorization := RoutesTs.bearer e |})
                     (fun data =>
                        VObj [("updated", VBool true); ("meta", data);
                              ("new_status", prop b "status")])
               end).
    { intros remote. unfold RoutesTs.ad_status. fold b.
      rewrite Hyes, Hid, Ht.
      rewrite (includes_truthy ["ACTIVE"; "PAUSED"; "ARCHIVED"] _
                 ltac:(intros [H|[H|[H|[]]]]; discriminate H) Hyes).
      reflexivity. }
    destruct (ToString rt (prop b "ad_id")) as [id_text|m];
      intros remote; exact (Hh remote).
Qed.

(** DELETED is refused, ARCHIVED is forwarded for the ad 77 and answered
    400 for an ad id without text. *)
Lemma routes_ad_status_validates_witness :
  (exists r,
      answers_alone
        (fun remote =>
           RoutesTs.ad_status sample_runtime configured_env remote delete_ad) r
      /\ status r = 400%Z)
  /\ calls
       (fun remote =>
          RoutesTs.ad_status sample_runtime configured_env remote archive_ad)
       {| verb := "POST";
          url := "https://graph.facebook.com/v23.0/77";
          params := [("status", VStr "ARCHIVED")];
          authorization := "Bearer token" |}
       (fun reply =>
          RoutesTs.relay "ad_status" reply
            (fun data =>
               VObj [("updated", VBool true); ("meta", data);
                     ("new_status", VStr "ARCHIVED")]))
  /\ answers_alone
       (fun remote =>
          RoutesTs.ad_status sample_runtime configured_env remote
            archive_textless)
       {| status := 400;
          body := VObj [("error",
                         VStr "Cannot convert object to primitive value");
                        ("endpoint", VStr "ad_status")] |}.
Proof.
  split; [|split].
  - exact (proj1 (routes_ad_status_validates sample_runtime configured_env
                    delete_ad) eq_refl).
  - exact (proj2 (routes_ad_status_validates sample_runtime configured_env
                    archive_ad) eq_refl eq_refl eq_refl).
  - exact (proj2 (routes_ad_status_validates sample_runtime configured_env
                    archive_textless) eq_refl eq_refl eq_refl).
Defined.

(** X12. In [server/routes.ts] the body is checked before the
    configuration: without a token none of the three POST handlers calls
    the remote API; an incomplete body is still answered 400, a complete
    one 500. *)
Theorem routes_without_token (rt : Runtime) (e : env) (b1 b2 b3 : value) :
  str_truthy (RoutesTs.META_TOKEN e) = false ->
  let i := js_or b1 (VObj []) in
  let a := js_or b2 (VObj []) in
  let s := js_or b3 (VObj []) in
  let no_token := error_json 500 "META_SYSTEM_USER_TOKEN not configured" in
  answers_alone (fun remote => RoutesTs.insights rt e remote b1)
    (if truthy (prop i "since") && truthy (prop i "until") then no_token
     else error_json 400 "since and until dates are required")
  /\ answers_alone (fun remote => RoutesTs.adset_budget rt e remote b2)
       (if truthy (prop a "adset_id") && truthy (prop a "daily_budget_eur")
        then no_token
        else error_json 400 "adset_id and daily_budget_eur are required")
  /\ answers_alone (fun remote => RoutesTs.ad_status rt e remote b3)
       (if truthy (prop s "ad_id") && truthy (prop s "status") then
          if includes ["ACTIVE"; "PAUSED"; "ARCHIVED"] (prop s "status")
          then no_token
          else error_json 400 "status must be ACTIVE, PAUSED, or ARCHIVED"
        else error_json 400 "ad_id and status are required").
Proof.
  intros Ht i a s no_token. split; [|split]; intros remote.
  - unfold RoutesTs.insights. fold i. rewrite Ht.
    destruct (truthy (prop i "since")), (truthy (prop i "until")); reflexivity.
  - unfold RoutesTs.adset_budget. fold a. rewrite Ht.
    destruct (truthy (prop a "adset_id")),
      (truthy (prop a "daily_budget_eur")); reflexivity.
  - unfold RoutesTs.ad_status. fold s. rewrite Ht.
    destruct (truthy (prop s "ad_id")), (truthy (prop s "status")),
      (includes ["ACTIVE"; "PAUSED"; "ARCHIVED"] (prop s "status"));
      reflexivity.
Qed.

(** A complete budget update without a token: 500. *)
Lemma routes_without_token_witness :
  answers_alone
    (fun remote =>
       RoutesTs.adset_budget sample_runtime tokenless_env remote fifty_euros)
    (error_json 500 "META_SYSTEM_USER_TOKEN not configured").
Proof.
  exact (proj1 (proj2 (routes_without_token sample_runtime tokenless_env
                         insights_without_dates fifty_euros archive_ad
                         eq_refl))).
Defined.

(** X13. The status endpoints of the two server scripts do not check the
    status against the policy: with an ad id that has a text, any truthy
    [status] is sent to the remote API as it is, also one the simulator of
    the second script does not approve for the same payload. (An ad id
    without text is answered 400, with the message of the TypeError,
    without a call.) *)
Theorem ad_status_not_policed (rt : Runtime) (e : env) (req_body : value) :
  let b := js_or req_body (VObj []) in
  truthy (prop b "ad_id") = true ->
  truthy (prop b "status") = true ->
  match ToString rt (prop b "ad_id") with
  | Normal id_text =>
      calls (fun remote => BridgeV1.ad_status rt e remote req_body)
        {| verb := "POST";
           url := BridgeV1.BASE e id_text;
           params := [("status", prop b "status")];
           authorization := BridgeV1.bearer e |}
        (fun reply =>
           BridgeV1.relay reply
             (fun data => VObj [("updated", VBool true); ("meta", data)]))
      /\ (BridgeV2.hasEssentialEnv e = true ->
          calls (fun remote => BridgeV2.ad_status rt e remote req_body)
            {| verb := "POST";
               url := BridgeV2.BASE e id_text;
               params := [("status", prop b "status")];
               authorization := BridgeV2.authHeader e |}
            (fun reply =>
               BridgeV2.relay reply
                 (fun data => VObj [("updated", VBool true); ("meta", data)])))
  | Throw m =>
      answers_alone (fun remote => BridgeV1.ad_status rt e remote req_body)
        (error_json 400 m)
      /\ (BridgeV2.hasEssentialEnv e = true ->
          answers_alone
            (fun remote => BridgeV2.ad_status rt e remote req_body)
            (error_json 400 m))
  end
  /\ (has (allowStatuses DEFAULT_POLICY) (prop b "status") = false ->
      forall decision,
        BridgeV2.simulate_action rt (VStr "ad_status") b = Normal decision ->
        prop decision "approved" = VBool false).
Proof.
  intros b Hid Hs. split.
  - assert (H1 : forall remote,
               BridgeV1.ad_status rt e remote req_body =
               match ToString rt (prop b "ad_id") with
               | Throw m => error_json 400 m
               | Normal id_text =>
                   BridgeV1.relay
                     (remote {| verb := "POST";
                                url := BridgeV1.BASE e id_text;
                                params := [("status", prop b "status")];
                                authorization := BridgeV1.bearer e |})
                     (fun data => VObj [("updated", VBool true); ("meta", data)])
               end).
    { intros remote. unfold BridgeV1.ad_status. fold b. now rewrite Hid, Hs. }
    assert (H2 : BridgeV2.hasEssentialEnv e = true ->
               forall remote,
               BridgeV2.ad_status rt e remote req_body =
               match ToString rt (prop b "ad_id") with
               | Throw m => error_json 400 m
               | Normal id_text =>
                   BridgeV2.relay
                     (remote {| verb := "POST";
                                url := BridgeV2.BASE e id_text;
                                params := [("status", prop b "status")];
                                authorization := BridgeV2.authHeader e |})
                     (fun data => VObj [("updated", VBool true); ("meta", data)])
               end).
    { intros Henv remote. unfold BridgeV2.ad_status, BridgeV2.ensureEnv.
      rewrite Henv. simpl negb. cbv iota. fold b. cbv zeta.
      now rewrite Hid, Hs. }
    destruct (ToString rt (prop b "ad_id")) as [id_text|m];
      (split; [intros remote; exact (H1 remote)
              | intros Henv remote; exact (H2 Henv remote)]).
  - intros Hno decision. unfold BridgeV2.simulate_action.
    change (is_string (VStr "ad_status") "ad_status") with true. cbv iota.
    rewrite Hno.
    destruct (ToString rt (prop b "status")); [|discriminate].
    now intros [= <-].
Qed.

(** DELETED: not approved by the simulator, forwarded by the endpoint. *)
Lemma ad_status_not_policed_witness :
  calls
    (fun remote =>
       BridgeV2.ad_status sample_runtime configured_env remote delete_ad)
    {| verb := "POST";
       url := "https://graph.facebook.com/v23.0/77";
       params := [("status", VStr "DELETED")];
       authorization := "Bearer token" |}
    (fun reply =>
       BridgeV2.relay reply
         (fun data => VObj [("updated", VBool true); ("meta", data)]))
  /\ (forall decision,
        BridgeV2.simulate_action sample_runtime (VStr "ad_status") delete_ad
          = Normal decision ->
        prop decision "approved" = VBool false).
Proof.
  destruct (ad_status_not_policed sample_runtime configured_env delete_ad
              eq_refl eq_refl) as ((_ & H2) & H3).
  split; [exact (H2 eq_refl) | exact (H3 eq_refl)].
Defined.

(** ** The insights endpoint *)

(** X14. With a complete environment the POST insights handler of the
    second server script always makes one GET: it carries [time_range]
    exactly when [since] and [until] are both given, [date_preset] exactly
    when they are not and the body has one (never both), and always a
    truthy [fields]. *)
Theorem insights_time_range_or_preset (rt : Runtime) (e : env)
    (req_body : value) :
  let b := js_or req_body (VObj []) in
  BridgeV2.hasEssentialEnv e = true ->
  exists req,
    calls (fun remote => BridgeV2.insights rt e remote req_body) req
      (fun reply => BridgeV2.relay reply (fun data => data))
    /\ verb req = "GET"
    /\ has_param "time_range" req
       = truthy (prop b "since") && truthy (prop b "until")
    /\ has_param "date_preset" req
       = negb (truthy (prop b "since") && truthy (prop b "until"))
         && truthy (prop b "date_preset")
    /\ truthy (lookup "fields" (params req)) = true.
Proof.
  intros b Henv. eexists. split.
  - intros remote. unfold BridgeV2.insights, BridgeV2.ensureEnv.
    rewrite Henv. simpl negb. cbv iota. fold b. cbv zeta. reflexivity.
  - unfold has_param. cbn [params verb].
    split; [reflexivity|].
    assert (Hf : truthy (js_or (prop b "fields") (VStr default_fields)) = true).
    { unfold js_or. now destruct (truthy (prop b "fields")) eqn:E. }
    destruct (truthy (prop b "breakdowns")),
      (truthy (prop b "since") && truthy (prop b "until")),
      (truthy (prop b "date_preset")); simpl; auto.
Qed.

(** A body with [since] only and a [date_preset]: the preset is
    forwarded, no [time_range]. *)
Lemma insights_time_range_or_preset_witness :
  exists req,
    calls
      (fun remote =>
         BridgeV2.insights sample_runtime configured_env remote
           insights_with_preset) req
      (fun reply => BridgeV2.relay reply (fun data => data))
    /\ has_param "time_range" req = false
    /\ has_param "date_preset" req = true.
Proof.
  destruct (insights_time_range_or_preset sample_runtime configured_env
              insights_with_preset eq_refl) as (req & Hc & _ & Ht & Hd & _).
  exists req. split; [exact Hc|]. split; [exact Ht | exact Hd].
Defined.

(** X18. For a body with both dates the three gateways forward the same
    query: whenever each of them makes its call, every parameter
    ([level], [time_range], [time_increment], [fields], [breakdowns] and
    any other key) has the same value in the three calls. *)
Theorem insights_variants_agree (rt : Runtime) (e : env) (req_body : value) :
  let b := js_or req_body (VObj []) in
  truthy (prop b "since") = true ->
  truthy (prop b "until") = true ->
  str_truthy (RoutesTs.META_TOKEN e) = true ->
  str_truthy (RoutesTs.AD_ACCOUNT_ID e) = true ->
  BridgeV2.hasEssentialEnv e = true ->
  exists q0 q1 q2,
    calls (fun remote => RoutesTs.insights rt e remote req_body) q0
      (fun reply => RoutesTs.relay "insights" reply (fun data => data))
    /\ calls (fun remote => BridgeV1.insights rt e remote req_body) q1
         (fun reply => BridgeV1.relay reply (fun data => data))
    /\ calls (fun remote => BridgeV2.insights rt e remote req_body) q2
         (fun reply => BridgeV2.relay reply (fun data => data))
    /\ (forall k,
          lookup k (params q0) = lookup k (params q1)
          /\ lookup k (params q1) = lookup k (params q2))
    /\ lookup "time_range" (params q0)
       = VStr (JSON_stringify rt
                 (VObj [("since", prop b "since"); ("until", prop b "until")])).
Proof.
  intros b Hs Hu Ht Ha Henv. eexists. eexists. eexists.
  split; [|split; [|split; [|split]]].
  - intros remote. unfold RoutesTs.insights. fold b.
    rewrite Hs, Hu, Ht, Ha. reflexivity.
  - intros remote. unfold BridgeV1.insights. fold b.
    rewrite Hs, Hu. reflexivity.
  - intros remote. unfold BridgeV2.insights, BridgeV2.ensureEnv.
    rewrite Henv. simpl negb. cbv iota. fold b. cbv zeta.
    rewrite Hs, Hu. reflexivity.
  - intros k. cbn [params].
    destruct (truthy (prop b "breakdowns")); cbn [app lookup andb];
      destruct (String.eqb_spec k "level") as [->|_]; auto;
      destruct (String.eqb_spec k "time_range") as [->|_]; auto;
      destruct (String.eqb_spec k "time_increment") as [->|_]; auto;
      destruct (String.eqb_spec k "fields") as [->|_]; auto;
      destruct (String.eqb_spec k "breakdowns") as [->|_]; auto.
  - reflexivity.
Qed.

(** The request for January by campaign and age. *)
Lemma insights_variants_agree_witness :
  exists q0 q1 q2,
    calls
      (fun remote =>
         RoutesTs.insights sample_runtime configured_env remote
           insights_january) q0
      (fun reply => RoutesTs.relay "insights" reply (fun data => data))
    /\ calls
         (fun remote =>
            BridgeV2.insights sample_runtime configured_env remote
              insights_january) q2
         (fun reply => BridgeV2.relay reply (fun data => data))
    /\ lookup "breakdowns" (params q0) = lookup "breakdowns" (params q1)
    /\ lookup "breakdowns" (params q1) = lookup "breakdowns" (params q2).
Proof.
  destruct (insights_variants_agree sample_runtime configured_env
              insights_january eq_refl eq_refl eq_refl eq_refl eq_refl)
    as (q0 & q1 & q2 & H0 & _ & H2 & Hk & _).
  exists q0, q1, q2. split; [exact H0|]. split; [exact H2|].
  exact (Hk "breakdowns").
Defined.

(** ** The API-key guard, both ways *)

Lemma open_path_v2 (pth : string) :
  existsb (String.eqb pth) BridgeV2.OPEN_PATHS = true
  <-> pth = "/api/health" \/ pth = "/healthz".
Proof.
  unfold BridgeV2.OPEN_PATHS. simpl. rewrite orb_false_r, orb_true_iff.
  now rewrite !String.eqb_eq.
Qed.

(** X15. With a non-empty secret configured, the first guard passes a
    request exactly when its path is [/api/health] or its [X-API-Key]
    header is the secret; the second guard exactly when its path is
    [/api/health] or [/healthz], its method is OPTIONS, or the header is
    the secret. In particular the right key opens every path. *)
Theorem guard_passes_iff (e : env) (req : request) (secret : string) :
  secret <> EmptyString ->
  (BridgeV1.BRIDGE_API_KEY e = Some secret ->
   (BridgeV1.guard e req = Next <->
    path req = "/api/health" \/ x_api_key req = Some secret))
  /\ (BridgeV2.BRIDGE_API_KEY e = Some secret ->
      (BridgeV2.guard e req = Next <->
       path req = "/api/health" \/ path req = "/healthz"
       \/ method req = "OPTIONS" \/ x_api_key req = Some secret)).
Proof.
  intros Hs. split; intros Hkey.
  - unfold BridgeV1.guard. simpl existsb.
    rewrite Hkey, (secret_truthy secret Hs). simpl negb. simpl orb.
    rewrite orb_false_r.
    destruct (String.eqb_spec (path req) "/api/health") as [Hp|Hp].
    + split; auto.
    + destruct (BridgeV1.same_key (x_api_key req) (Some secret)) eqn:E.
      * apply same_key_eq in E. split; auto.
      * split; [discriminate|]. intros [H|H]; [contradiction|].
        apply same_key_eq in H. congruence.
  - unfold BridgeV2.guard.
    destruct (existsb (String.eqb (path req)) BridgeV2.OPEN_PATHS) eqn:Eo.
    { apply open_path_v2 in Eo. split; [tauto | reflexivity]. }
    assert (Hno : ~ (path req = "/api/health" \/ path req = "/healthz")).
    { intros H. apply open_path_v2 in H. congruence. }
    destruct (String.eqb_spec (method req) "OPTIONS") as [Hm|Hm].
    { split; [tauto | reflexivity]. }
    rewrite Hkey, (secret_truthy secret Hs). simpl negb. cbv iota.
    destruct (BridgeV1.same_key (x_api_key req) (Some secret)) eqn:E.
    + apply same_key_eq in E. rewrite E, (secret_truthy secret Hs).
      split; [tauto | reflexivity].
    + rewrite andb_false_r. split; [discriminate|].
      intros [H|[H|[H|H]]]; try tauto.
      apply same_key_eq in H. congruence.
Qed.

(** The right key opens a protected path in both scripts. *)
Lemma guard_passes_iff_witness :
  BridgeV1.guard configured_env post_right_key = Next
  /\ BridgeV2.guard configured_env post_right_key = Next.
Proof.
  destruct (guard_passes_iff configured_env post_right_key "s3cret")
    as [H1 H2]; [discriminate|].
  split; [apply (H1 eq_refl) | apply (H2 eq_refl)]; auto 6.
Defined.

(** ** The request history of the dashboard *)

Lemma history_step_bounded (st : Dashboard.state) (ev : Dashboard.event) :
  (List.length (Dashboard.requestHistory st) <= 10)%nat ->
  (List.length (Dashboard.requestHistory (Dashboard.step st ev)) <= 10)%nat.
Proof.
  intros H. destruct ev; [|exact H|simpl; lia].
  unfold Dashboard.step, Dashboard.handleApiResponse.
  cbn [Dashboard.requestHistory List.length].
  rewrite length_firstn. lia.
Qed.

(** X16. The request history of the dashboard never holds more than ten
    entries, whatever responses arrive and whichever Clear button is
    pressed in between. *)
Theorem history_bounded (evs : list Dashboard.event) :
  (List.length (Dashboard.requestHistory (Dashboard.run evs)) <= 10)%nat.
Proof.
  unfold Dashboard.run.
  assert (H : forall st,
             (List.length (Dashboard.requestHistory st) <= 10)%nat ->
             (List.length
                (Dashboard.requestHistory
                   (fold_left Dashboard.step evs st)) <= 10)%nat).
  { induction evs as [|ev evs IH]; intros st Hst; simpl; [exact Hst|].
    apply IH, history_step_bounded, Hst. }
  apply H. simpl. lia.
Qed.

Lemma history_step_recent (st : Dashboard.state) (ev : Dashboard.event)
    (hs : list Dashboard.HistoryItem) :
  ev <> Dashboard.ClearHistory ->
  Dashboard.requestHistory st = firstn 10 (rev hs) ->
  Dashboard.requestHistory (Dashboard.step st ev)
    = firstn 10 (rev (hs ++ Dashboard.entries [ev])).
Proof.
  intros Hev Hst. destruct ev; [| |contradiction].
  - unfold Dashboard.step, Dashboard.handleApiResponse, Dashboard.entries.
    cbn [Dashboard.requestHistory Dashboard.entry flat_map app].
    rewrite Hst, rev_app_distr, firstn_firstn. reflexivity.
  - unfold Dashboard.entries. cbn. now rewrite app_nil_r.
Qed.

Lemma history_fold_recent (evs : list Dashboard.event) :
  forall (st : Dashboard.state) (hs : list Dashboard.HistoryItem),
    Forall (fun ev => ev <> Dashboard.ClearHistory) evs ->
    Dashboard.requestHistory st = firstn 10 (rev hs) ->
    Dashboard.requestHistory (fold_left Dashboard.step evs st)
      = firstn 10 (rev (hs ++ Dashboard.entries evs)).
Proof.
  induction evs as [|ev evs IH]; intros st hs Hall Hst; simpl.
  - now rewrite app_nil_r.
  - inversion Hall as [|? ? Hev Hrest]; subst.
    rewrite (IH (Dashboard.step st ev) (hs ++ Dashboard.entries [ev])%list
               Hrest (history_step_recent st ev hs Hev Hst)).
    rewrite <- app_assoc. unfold Dashboard.entries. simpl.
    now rewrite app_nil_r.
Qed.

(** X17. The history holds the entries of the ten most recent responses
    since it was last cleared (or since the page was opened), the newest
    first. *)
Theorem history_most_recent (before evs : list Dashboard.event) :
  Forall (fun ev => ev <> Dashboard.ClearHistory) evs ->
  Dashboard.requestHistory (Dashboard.run evs)
    = firstn 10 (rev (Dashboard.entries evs))
  /\ Dashboard.requestHistory
       (Dashboard.run (before ++ Dashboard.ClearHistory :: evs))
     = firstn 10 (rev (Dashboard.entries evs)).
Proof.
  intros Hall. unfold Dashboard.run. split.
  - exact (history_fold_recent evs Dashboard.initial [] Hall eq_refl).
  - rewrite fold_left_app. simpl fold_left.
    apply (history_fold_recent evs
             (Dashboard.step (fold_left Dashboard.step before Dashboard.initial)
                Dashboard.ClearHistory) [] Hall).
    reflexivity.
Qed.

(** After twelve responses the history shows the ten last, 12 down to
    3. *)
Lemma history_most_recent_witness :
  map Dashboard.endpoint (Dashboard.requestHistory (Dashboard.run twelve_arrivals))
    = ["12"; "11"; "10"; "9"; "8"; "7"; "6"; "5"; "4"; "3"].
Proof.
  rewrite (proj1 (history_most_recent [] twelve_arrivals
                    ltac:(repeat constructor; discriminate))).
  reflexivity.
Defined.
